(** * manage_model_apis.py: a shallow embedding and its properties

    The script drives a remote model-management REST API: it lists projects,
    lists the models of each project, stops the running ones (recording them
    in [stopped_models.txt]) and restarts the recorded ones.

    The embedding follows the script function by function.  What the script
    observes and changes is an explicit [world]: the files it touches, the
    server it talks to, and the ordered trace of everything it did (requests
    with their responses, log records, [print] calls, file operations).
    Python exceptions are the [Raise] results of an error monad over that
    world; the world reached when an exception escapes is kept, so effects
    that happened before the fault stay visible. *)

From Stdlib Require Import ZArith Ascii String List Bool Lia.
From Stdlib Require Import Floats.PrimFloat.
From stdpp Require Import base list gmap strings pretty.

Local Open Scope Z_scope.

(** ** Python strings

    A Python [str] is modelled by [string]; its characters are the code
    points below 256. *)

Definition LF : ascii := ascii_of_nat 10.
Definition CR : ascii := ascii_of_nat 13.
Definition comma : ascii := ascii_of_nat 44.
Definition NL : string := String LF EmptyString.

(** [str.isspace] on one character: TAB..CR, FS..US, SPACE, NEL, NBSP. *)
Definition is_space (c : ascii) : bool :=
  let n := nat_of_ascii c in
  (Nat.leb 9 n && Nat.leb n 13) || (Nat.leb 28 n && Nat.leb n 32)
  || Nat.eqb n 133 || Nat.eqb n 160.

Fixpoint lstrip (s : string) : string :=
  match s with
  | EmptyString => EmptyString
  | String c s' => if is_space c then lstrip s' else s
  end.

Fixpoint rstrip (s : string) : string :=
  match s with
  | EmptyString => EmptyString
  | String c s' =>
      match rstrip s' with
      | EmptyString => if is_space c then EmptyString else String c EmptyString
      | r => String c r
      end
  end.

(** [s.strip()] *)
Definition strip (s : string) : string := rstrip (lstrip s).

(** [s.split(sep)] for a one-character separator: never the empty list. *)
Fixpoint split (sep : ascii) (s : string) : list string :=
  match s with
  | EmptyString => [EmptyString]
  | String c s' =>
      if Ascii.eqb c sep then EmptyString :: split sep s'
      else match split sep s' with
           | p :: ps => String c p :: ps
           | [] => [String c EmptyString]
           end
  end.

(** [file.readlines()] of a file opened in text mode: the content is cut
    after every line end, and the line ends "\n", "\r" and "\r\n" are all
    delivered as "\n" (universal newlines).  A last line without a line end
    is delivered as it is. *)
Fixpoint readlines (s : string) : list string :=
  match s with
  | EmptyString => []
  | String c s' =>
      if Ascii.eqb c LF then NL :: readlines s'
      else if Ascii.eqb c CR then
        match s' with
        | String c' s'' => if Ascii.eqb c' LF then NL :: readlines s''
                           else NL :: readlines s'
        | EmptyString => [NL]
        end
      else match readlines s' with
           | l :: ls => String c l :: ls
           | [] => [String c EmptyString]
           end
  end.

(** [sep.join(parts)] *)
Fixpoint join (sep : string) (parts : list string) : string :=
  match parts with
  | [] => EmptyString
  | [p] => p
  | p :: ps => p +:+ sep +:+ join sep ps
  end.

(** ** Decoded JSON values

    What [response.json()] returns: [None], [bool], [int], [float], [str],
    [list] and [dict].  A dict is the list of its items in insertion order;
    the decoder keeps one value per key. *)

Inductive json : Type :=
| JNull
| JBool (b : bool)
| JInt (z : Z)
| JFloat (f : float)
| JStr (s : string)
| JArr (items : list json)
| JObj (fields : list (string * json)).

(** ** Exceptions and results *)

Inductive exn : Type :=
| ValueError (msg : string)
| KeyError (key : string)
| TypeError
| JSONDecodeError
| FileNotFoundError (path : string)
| SystemExit (code : Z).

Inductive result (A : Type) : Type :=
| Ok (a : A)
| Raise (e : exn).
Arguments Ok {A} a.
Arguments Raise {A} e.

Definition rbind {A B} (r : result A) (k : A -> result B) : result B :=
  match r with
  | Ok a => k a
  | Raise e => Raise e
  end.

(** Truth value of a decoded value, as tested by [if v:] and [not v]. *)
Definition py_truthy (v : json) : bool :=
  match v with
  | JNull => false
  | JBool b => b
  | JInt z => negb (z =? 0)
  | JFloat f => negb (PrimFloat.eqb f 0%float)
  | JStr s => negb (String.eqb s EmptyString)
  | JArr items => match items with [] => false | _ => true end
  | JObj fields => match fields with [] => false | _ => true end
  end.

Fixpoint chars (s : string) : list json :=
  match s with
  | EmptyString => []
  | String c s' => JStr (String c EmptyString) :: chars s'
  end.

(** [for x in v]: the items of a list, the keys of a dict, the characters of
    a str; the other values are not iterable. *)
Definition py_iter (v : json) : result (list json) :=
  match v with
  | JArr items => Ok items
  | JObj fields => Ok (map (fun kv => JStr (fst kv)) fields)
  | JStr s => Ok (chars s)
  | _ => Raise TypeError
  end.

Fixpoint assoc (key : string) (fields : list (string * json)) : option json :=
  match fields with
  | [] => None
  | (k, v) :: rest => if String.eqb k key then Some v else assoc key rest
  end.

(** [v[key]] for a string key: only a dict can be indexed by a str. *)
Definition py_getitem (v : json) (key : string) : result json :=
  match v with
  | JObj fields =>
      match assoc key fields with
      | Some x => Ok x
      | None => Raise (KeyError key)
      end
  | _ => Raise TypeError
  end.

(** [v == "..."]: a value that is not a str is never equal to a str. *)
Definition py_eq_str (v : json) (s : string) : bool :=
  match v with
  | JStr s' => String.eqb s' s
  | _ => false
  end.

(** ** The world *)

Inductive method : Type := GET | POST.

Record request : Type := mkRequest {
  req_method : method;
  req_url : string;
  req_headers : list (string * string);
  req_data : option string
}.

(** An HTTP response: its status code, and its body as [response.json()]
    decodes it ([None]: the body is not JSON, and [json()] raises). *)
Record response : Type := mkResponse {
  status_code : Z;
  json_body : option json
}.

Inductive level : Type := DEBUG | ERROR.

Inductive event : Type :=
| EvHttp (rq : request) (rs : response)
| EvLog (lv : level) (msg : string)
| EvPrint (line : string)
| EvOpen (path : string) (mode : string)
| EvWrite (path : string) (data : string)
| EvRemove (path : string).

(** The server answers a request knowing the requests it received before
    (oldest first).  Every request gets a response: a transport failure,
    where [requests] has no response to return, is outside the model. *)
Record world : Type := mkWorld {
  fs : gmap string string;
  trace : list event;
  server : list request -> request -> response
}.

Fixpoint requests_of (evs : list event) : list request :=
  match evs with
  | [] => []
  | EvHttp rq _ :: evs' => rq :: requests_of evs'
  | _ :: evs' => requests_of evs'
  end.

(** The response the world gives to [rq] if it is sent now. *)
Definition reply (w : world) (rq : request) : response :=
  server w (requests_of (trace w)) rq.

Definition emit_world (e : event) (w : world) : world :=
  mkWorld (fs w) (trace w ++ [e]) (server w).

(** ** The monad of the script: state and exceptions *)

Definition M (A : Type) : Type := world -> result A * world.

Definition ret {A} (a : A) : M A := fun w => (Ok a, w).

Definition bind {A B} (m : M A) (k : A -> M B) : M B :=
  fun w =>
    match m w with
    | (Ok a, w') => k a w'
    | (Raise e, w') => (Raise e, w')
    end.

Definition lift {A} (r : result A) : M A := fun w => (r, w).

Definition emit (e : event) : M unit := fun w => (Ok tt, emit_world e w).

Declare Scope py_scope.
Delimit Scope py_scope with py.
Notation "x <- c ;; k" := (bind c (fun x => k))
  (at level 100, c at next level, right associativity) : py_scope.
Notation "c ;; k" := (bind c (fun _ => k))
  (at level 100, right associativity) : py_scope.
Notation "'try!' x <- r ;; k" := (rbind r (fun x => k))
  (at level 100, x name, r at next level, right associativity) : py_scope.
Local Open Scope py_scope.

(** [for x in xs: body(x)] *)
Fixpoint for_each {A} (xs : list A) (body : A -> M unit) : M unit :=
  match xs with
  | [] => ret tt
  | x :: xs' => body x ;; for_each xs' body
  end.

(** *** Library calls *)

Definition requests_get (url : string) (headers : list (string * string))
  : M response :=
  fun w =>
    let rq := mkRequest GET url headers None in
    let rs := reply w rq in
    (Ok rs, emit_world (EvHttp rq rs) w).

Definition requests_post (url : string) (headers : list (string * string))
  (data : string) : M response :=
  fun w =>
    let rq := mkRequest POST url headers (Some data) in
    let rs := reply w rq in
    (Ok rs, emit_world (EvHttp rq rs) w).

Definition response_json (r : response) : result json :=
  match json_body r with
  | Some v => Ok v
  | None => Raise JSONDecodeError
  end.

Definition logging_debug (msg : string) : M unit := emit (EvLog DEBUG msg).
Definition logging_error (msg : string) : M unit := emit (EvLog ERROR msg).
Definition print (line : string) : M unit := emit (EvPrint line).

Definition os_path_exists (path : string) : M bool :=
  fun w => (Ok (bool_decide (is_Some (fs w !! path))), w).

(** [os.remove(path)] of a file that exists. *)
Definition os_remove (path : string) : M unit :=
  fun w => (Ok tt, mkWorld (delete path (fs w)) (trace w ++ [EvRemove path])
                           (server w)).

(** [open(path, "a")]: the file is created empty when it is not there. *)
Definition open_append (path : string) : M unit :=
  fun w =>
    let old := default EmptyString (fs w !! path) in
    (Ok tt, mkWorld (<[path := old]> (fs w)) (trace w ++ [EvOpen path "a"])
                    (server w)).

(** [file.write(data)] on a file opened for appending. *)
Definition file_write (path : string) (data : string) : M unit :=
  fun w =>
    let old := default EmptyString (fs w !! path) in
    (Ok tt, mkWorld (<[path := old +:+ data]> (fs w))
                    (trace w ++ [EvWrite path data]) (server w)).

(** [open(path, "r")] followed by [file.readlines()]. *)
Definition open_readlines (path : string) : M (list string) :=
  fun w =>
    match fs w !! path with
    | Some content => (Ok (readlines content), emit_world (EvOpen path "r") w)
    | None => (Raise (FileNotFoundError path), w)
    end.

(** ** The script *)

Section Runtime.

(** What the script takes from the Python runtime and the model leaves open:
    [str()] of a float, a list or a dict; the [format_timestamp] helper of
    the script, which divides by 1000 in floating point and renders the
    result in the local time zone; and the argument parser that [main]
    builds, with its one positional argument [operation]. *)
Variable py_repr : json -> string.
Variable format_timestamp : json -> result string.
Variable parse_args : list string -> result string.

Section Globals.

(** The module-level global [api_key]. *)
Variable api_key : string.

(** [str(v)], as an f-string field renders [v]. *)
Definition py_str (v : json) : string :=
  match v with
  | JStr s => s
  | JInt z => pretty z
  | JNull => "None"
  | JBool true => "True"
  | JBool false => "False"
  | _ => py_repr v
  end.

Definition domino_url : string := "https://prod-field.cs.domino.tech".

Definition headers : list (string * string) :=
  [("accept", "application/json"); ("X-Domino-Api-Key", api_key)].

Definition stopped_models_txt : string := "stopped_models.txt".
Definition model_manage_log_txt : string := "model_manage_log.txt".

Definition fetch_projects : M json :=
  let url := domino_url +:+ "/v4/projects" in
  response <- requests_get url headers ;;
  if status_code response =? 200 then
    logging_debug "Projects fetched successfully" ;;
    lift (response_json response)
  else
    logging_error ("Failed to fetch projects: "
                   +:+ pretty (status_code response)) ;;
    ret (JArr []).

Definition fetch_models (project_id : json) : M json :=
  let url := domino_url +:+ "/v4/modelManager/getModels?projectId="
             +:+ py_str project_id in
  response <- requests_get url headers ;;
  if status_code response =? 200 then
    logging_debug ("Models fetched successfully for project "
                   +:+ py_str project_id) ;;
    lift (response_json response)
  else
    logging_error ("Failed to fetch models for project "
                   +:+ py_str project_id +:+ ": "
                   +:+ pretty (status_code response)) ;;
    ret (JArr []).

Definition stop_model_deployment (model_id active_model_version_id : json)
  : M bool :=
  let url := domino_url +:+ "/v4/models/" +:+ py_str model_id +:+ "/"
             +:+ py_str active_model_version_id +:+ "/stopModelDeployment" in
  response <- requests_post url headers EmptyString ;;
  if status_code response =? 200 then
    logging_debug ("Successfully stopped model deployment for model "
                   +:+ py_str model_id +:+ " version "
                   +:+ py_str active_model_version_id) ;;
    ret true
  else
    logging_error ("Failed to stop model deployment for model "
                   +:+ py_str model_id +:+ " version "
                   +:+ py_str active_model_version_id +:+ ": "
                   +:+ pretty (status_code response)) ;;
    ret false.

Definition start_model_deployment (model_id active_model_version_id : json)
  : M bool :=
  let url := domino_url +:+ "/v4/models/" +:+ py_str model_id +:+ "/"
             +:+ py_str active_model_version_id +:+ "/startModelDeployment" in
  response <- requests_post url headers EmptyString ;;
  if status_code response =? 200 then
    logging_debug ("Successfully started model deployment for model "
                   +:+ py_str model_id +:+ " version "
                   +:+ py_str active_model_version_id) ;;
    ret true
  else
    logging_error ("Failed to start model deployment for model "
                   +:+ py_str model_id +:+ " version "
                   +:+ py_str active_model_version_id +:+ ": "
                   +:+ pretty (status_code response)) ;;
    ret false.

(** [[model for model in models if model['activeVersionStatus'] == "Running"]]
    over the items that iterating [models] delivers. *)
Fixpoint running_items (items : list json) : result (list json) :=
  match items with
  | [] => Ok []
  | model :: rest =>
      try! status <- py_getitem model "activeVersionStatus" ;;
      try! kept <- running_items rest ;;
      Ok (if py_eq_str status "Running" then model :: kept else kept)
  end.

Definition running_only (models : json) : result (list json) :=
  try! items <- py_iter models ;;
  running_items items.

(** [[owner['fullName'] for owner in owners]] *)
Fixpoint full_names (owners : list json) : result (list json) :=
  match owners with
  | [] => Ok []
  | owner :: rest =>
      try! name <- py_getitem owner "fullName" ;;
      try! names <- full_names rest ;;
      Ok (name :: names)
  end.

(** [sep.join(values)]: every value has to be a str. *)
Fixpoint str_items (values : list json) : result (list string) :=
  match values with
  | [] => Ok []
  | JStr s :: rest => try! ss <- str_items rest ;; Ok (s :: ss)
  | _ :: _ => Raise TypeError
  end.

Definition py_join (sep : string) (values : list json) : result string :=
  try! parts <- str_items values ;;
  Ok (join sep parts).

(** [print(f"<label>{model[<key>]}")] *)
Definition print_field (label : string) (model : json) (key : string)
  : M unit :=
  v <- lift (py_getitem model key) ;;
  print (label +:+ py_str v).

(** The body of the [for model in models] loop of [show_models]. *)
Definition show_model (model : json) : M unit :=
  print_field "Model ID: " model "id" ;;
  print_field "Name: " model "name" ;;
  print_field "Description: " model "description" ;;
  print_field "Active Version Number: " model "activeVersionNumber" ;;
  print_field "Active Model Version ID: " model "activeModelVersionId" ;;
  print_field "Active Version Data Plane ID: " model
              "activeVersionDataPlaneId" ;;
  print_field "Active Version Status: " model "activeVersionStatus" ;;
  (last_modified <- lift (py_getitem model "lastModified") ;;
   stamp <- lift (format_timestamp last_modified) ;;
   print ("Last Modified: " +:+ stamp)) ;;
  print_field "Project ID: " model "projectId" ;;
  print_field "Project Name: " model "projectName" ;;
  print_field "Project Owner Username: " model "projectOwnerUsername" ;;
  (owners <- lift (py_getitem model "owners") ;;
   owner_items <- lift (py_iter owners) ;;
   names <- lift (full_names owner_items) ;;
   joined <- lift (py_join ", " names) ;;
   print ("Owners: " +:+ joined)) ;;
  (is_async <- lift (py_getitem model "isAsync") ;;
   print ("Is Async: " +:+ py_str is_async +:+ NL)).

(** The header line of [show_models] and the loop under it. *)
Definition show_block (project_id project_name models : json) : M unit :=
  print ("Models for Project ID: " +:+ py_str project_id
         +:+ " and Name: " +:+ py_str project_name) ;;
  items <- lift (py_iter models) ;;
  for_each items show_model.

Definition show_models (project_id project_name : json)
  (show_running_only : bool) : M unit :=
  models <- fetch_models project_id ;;
  if py_truthy models then
    if show_running_only then
      running <- lift (running_only models) ;;
      match running with
      | [] => ret tt
      | _ => show_block project_id project_name (JArr running)
      end
    else show_block project_id project_name models
  else ret tt.

(** The first loop of [stop_running_models]; [stopped_models] is the list
    the loop appends to. *)
Fixpoint stop_loop (items : list json) (stopped_models : list string)
  : M (list string) :=
  match items with
  | [] => ret stopped_models
  | model :: rest =>
      status <- lift (py_getitem model "activeVersionStatus") ;;
      if py_eq_str status "Running" then
        model_id <- lift (py_getitem model "id") ;;
        active_model_version_id <-
          lift (py_getitem model "activeModelVersionId") ;;
        stopped <- stop_model_deployment model_id active_model_version_id ;;
        if (stopped : bool) then
          name <- lift (py_getitem model "name") ;;
          stop_loop rest
            (stopped_models ++
               [py_str name +:+ "," +:+ py_str model_id +:+ ","
                +:+ py_str active_model_version_id])
        else stop_loop rest stopped_models
      else stop_loop rest stopped_models
  end.

Definition stop_running_models (project_id project_name : json) : M unit :=
  models <- fetch_models project_id ;;
  if py_truthy models then
    items <- lift (py_iter models) ;;
    stopped_models <- stop_loop items [] ;;
    match stopped_models with
    | [] => ret tt
    | _ =>
        open_append stopped_models_txt ;;
        for_each stopped_models
          (fun model => file_write stopped_models_txt (model +:+ NL)) ;;
        print ("Stopped models for Project ID: " +:+ py_str project_id
               +:+ " and Name: " +:+ py_str project_name
               +:+ ". Details logged in stopped_models.txt.")
    end
  else ret tt.

(** The [ValueError] of unpacking [n] values into three names. *)
Definition unpack_error (n : nat) : exn :=
  ValueError (if Nat.ltb n 3
              then "not enough values to unpack (expected 3, got "
                   +:+ pretty n +:+ ")"
              else "too many values to unpack (expected 3)").

(** The body of the [for model in stopped_models] loop of
    [start_models_from_file]. *)
Definition start_line (model : string) : M unit :=
  match split comma (strip model) with
  | [name; model_id; active_model_version_id] =>
      started <- start_model_deployment (JStr model_id)
                                        (JStr active_model_version_id) ;;
      if (started : bool) then
        print ("Successfully started model '" +:+ name +:+ "' with ID "
               +:+ model_id +:+ " and Version ID "
               +:+ active_model_version_id)
      else ret tt
  | parts => lift (Raise (unpack_error (length parts)))
  end.

Definition start_models_from_file : M unit :=
  found <- os_path_exists stopped_models_txt ;;
  if negb found then
    print "stopped_models.txt not found. No models to start."
  else
    stopped_models <- open_readlines stopped_models_txt ;;
    for_each stopped_models start_line.

(** [logging.basicConfig(filename=..., filemode='a', ...)]: the handler opens
    the log file.  The records logged afterwards are kept in the trace; the
    text the handler writes for them starts with the wall-clock time and is
    not tracked in [fs]. *)
Definition logging_basicConfig (path : string) : M unit := open_append path.

(** What [main] does with an operation and a project once the project is
    known to have models. *)
Definition dispatch (operation : string) (project_id project_name : json)
  : M unit :=
  if String.eqb operation "show-all" then
    show_models project_id project_name false
  else if String.eqb operation "show-running" then
    show_models project_id project_name true
  else if String.eqb operation "stop" then
    stop_running_models project_id project_name
  else if String.eqb operation "start" then
    start_models_from_file
  else ret tt.

(** The body of the [for project in projects] loop of [main]. *)
Definition main_project (operation : string) (project : json) : M unit :=
  project_id <- lift (py_getitem project "id") ;;
  project_name <- lift (py_getitem project "name") ;;
  models <- fetch_models project_id ;;
  if py_truthy models then
    logging_debug ("Operation: " +:+ operation +:+ ", Project ID: "
                   +:+ py_str project_id +:+ ", Project Name: "
                   +:+ py_str project_name) ;;
    print ("Performing operation '" +:+ operation +:+ "' on Project ID: "
           +:+ py_str project_id +:+ " and Name: " +:+ py_str project_name) ;;
    dispatch operation project_id project_name
  else ret tt.

Definition main (argv : list string) : M unit :=
  operation <- lift (parse_args argv) ;;
  (found <- os_path_exists model_manage_log_txt ;;
   if (found : bool) then os_remove model_manage_log_txt else ret tt) ;;
  logging_basicConfig model_manage_log_txt ;;
  projects <- fetch_projects ;;
  if negb (py_truthy projects) then print "No projects found."
  else
    items <- lift (py_iter projects) ;;
    for_each items (main_project operation).

End Globals.

(** ** The module as a whole *)

Definition api_key_variable : string := "DOMINO_USER_API_KEY".

(** The module-level statements before the first [def]:
    [api_key = os.getenv(...)], then [if not api_key: raise ValueError(...)].
    [os.getenv] gives [None] for a variable that is not set. *)
Definition load_api_key (environ : gmap string string) : result string :=
  let api_key := environ !! api_key_variable in
  match api_key with
  | Some key =>
      if negb (String.eqb key EmptyString) then Ok key
      else Raise (ValueError
        "API key is not set in the environment variable DOMINO_USER_API_KEY")
  | None =>
      Raise (ValueError
        "API key is not set in the environment variable DOMINO_USER_API_KEY")
  end.

(** Running the file as a program: the module-level statements, then
    [main()] under [if __name__ == "__main__"]. *)
Definition script (environ : gmap string string) (argv : list string)
  : M unit :=
  api_key <- lift (load_api_key environ) ;;
  main api_key argv.

(** ** Reading a trace *)

Fixpoint prints_of (evs : list event) : list string :=
  match evs with
  | [] => []
  | EvPrint line :: evs' => line :: prints_of evs'
  | _ :: evs' => prints_of evs'
  end.

(** The data written to files, in order. *)
Fixpoint writes_of (evs : list event) : list (string * string) :=
  match evs with
  | [] => []
  | EvWrite path data :: evs' => (path, data) :: writes_of evs'
  | _ :: evs' => writes_of evs'
  end.

Definition is_file_event (e : event) : bool :=
  match e with
  | EvOpen _ _ | EvWrite _ _ | EvRemove _ => true
  | _ => false
  end.

Definition is_http_event (e : event) : bool :=
  match e with
  | EvHttp _ _ => true
  | _ => false
  end.

Definition is_get (rq : request) : bool :=
  match req_method rq with
  | GET => true
  | POST => false
  end.

(** The requests of a trace that were answered with status 200. *)
Fixpoint succeeded (evs : list event) : list request :=
  match evs with
  | [] => []
  | EvHttp rq rs :: evs' =>
      if status_code rs =? 200 then rq :: succeeded evs' else succeeded evs'
  | _ :: evs' => succeeded evs'
  end.

(** ** The requests of the four wrappers *)

Definition projects_request (api_key : string) : request :=
  mkRequest GET (domino_url +:+ "/v4/projects") (headers api_key) None.

Definition models_request (api_key : string) (project_id : json) : request :=
  mkRequest GET
    (domino_url +:+ "/v4/modelManager/getModels?projectId="
     +:+ py_str project_id)
    (headers api_key) None.

Definition stop_request (api_key : string)
  (model_id active_model_version_id : json) : request :=
  mkRequest POST
    (domino_url +:+ "/v4/models/" +:+ py_str model_id +:+ "/"
     +:+ py_str active_model_version_id +:+ "/stopModelDeployment")
    (headers api_key) (Some EmptyString).

Definition start_request (api_key : string)
  (model_id active_model_version_id : json) : request :=
  mkRequest POST
    (domino_url +:+ "/v4/models/" +:+ py_str model_id +:+ "/"
     +:+ py_str active_model_version_id +:+ "/startModelDeployment")
    (headers api_key) (Some EmptyString).

(** What [fetch_projects] and [fetch_models] return for a response. *)
Definition fetched (rs : response) : result json :=
  if status_code rs =? 200 then response_json rs else Ok (JArr []).

(** ** Records of the persistence file *)

(** A line of [stopped_models.txt] as [start_models_from_file] reads it:
    the three fields, when there are exactly three. *)
Definition parse_line (line : string) : option (string * string * string) :=
  match split comma (strip line) with
  | [name; model_id; active_model_version_id] =>
      Some (name, model_id, active_model_version_id)
  | _ => None
  end.

Definition record_start_request (api_key : string)
  (record : string * string * string) : request :=
  start_request api_key (JStr (snd (fst record))) (JStr (snd record)).

(** A model as [stop_running_models] needs it: a dict with the four keys the
    loop reads. *)
Definition well_formed_model (model : json) : Prop :=
  exists status model_id version_id name,
    py_getitem model "activeVersionStatus" = Ok status /\
    py_getitem model "id" = Ok model_id /\
    py_getitem model "activeModelVersionId" = Ok version_id /\
    py_getitem model "name" = Ok name.

(** [model['activeVersionStatus'] == "Running"] *)
Definition is_running (model : json) : bool :=
  match py_getitem model "activeVersionStatus" with
  | Ok status => py_eq_str status "Running"
  | Raise _ => false
  end.

Definition field (model : json) (key : string) : json :=
  match py_getitem model key with
  | Ok v => v
  | Raise _ => JNull
  end.

(** The record [name,model_id,version_id] of a model. *)
Definition model_record (model : json) : string :=
  py_str (field model "name") +:+ "," +:+ py_str (field model "id") +:+ ","
  +:+ py_str (field model "activeModelVersionId").

Definition model_stop_request (api_key : string) (model : json) : request :=
  stop_request api_key (field model "id")
               (field model "activeModelVersionId").

(** The lines that [stop_running_models] writes for a list of records. *)
Fixpoint record_lines (records : list string) : string :=
  match records with
  | [] => EmptyString
  | record :: rest => (record +:+ NL) +:+ record_lines rest
  end.

(** ** Basic facts *)

Lemma append_assoc (a b c : string) : (a +:+ b) +:+ c = a +:+ (b +:+ c).
Proof.
  induction a as [|ch a IH]; [reflexivity|].
  change (String ch ((a +:+ b) +:+ c) = String ch (a +:+ (b +:+ c))).
  by rewrite IH.
Qed.

Lemma append_empty_r (a : string) : a +:+ EmptyString = a.
Proof.
  induction a as [|ch a IH]; [reflexivity|].
  change (String ch (a +:+ EmptyString) = String ch a). by rewrite IH.
Qed.

Lemma requests_of_app (xs ys : list event) :
  requests_of (xs ++ ys) = requests_of xs ++ requests_of ys.
Proof.
  induction xs as [|[] xs IH]; simpl; rewrite ?IH; reflexivity.
Qed.

Lemma prints_of_app (xs ys : list event) :
  prints_of (xs ++ ys) = prints_of xs ++ prints_of ys.
Proof.
  induction xs as [|[] xs IH]; simpl; rewrite ?IH; reflexivity.
Qed.


Lemma succeeded_app (xs ys : list event) :
  succeeded (xs ++ ys) = succeeded xs ++ succeeded ys.
Proof.
  induction xs as [|[rq rs| | | | |] xs IH]; simpl; rewrite ?IH; try reflexivity.
  by destruct (status_code rs =? 200).
Qed.

(** *** The wrappers, step by step *)

Ltac run_wrapper :=
  intros rq rs; subst rq rs;
  unfold fetch_projects, fetch_models, stop_model_deployment,
    start_model_deployment, fetched, bind, requests_get, requests_post,
    projects_request, models_request, stop_request, start_request;
  match goal with
  | |- context [status_code ?r =? 200] => destruct (status_code r =? 200)
  end; simpl; eauto.

Lemma fetch_projects_run (api_key : string) (w : world) :
  let rq := projects_request api_key in
  let rs := reply w rq in
  exists lv msg,
    fetch_projects api_key w
    = (fetched rs, emit_world (EvLog lv msg) (emit_world (EvHttp rq rs) w)).
Proof.
  run_wrapper.
Qed.

Lemma fetch_models_run (api_key : string) (project_id : json) (w : world) :
  let rq := models_request api_key project_id in
  let rs := reply w rq in
  exists lv msg,
    fetch_models api_key project_id w
    = (fetched rs, emit_world (EvLog lv msg) (emit_world (EvHttp rq rs) w)).
Proof.
  run_wrapper.
Qed.

Lemma stop_model_deployment_run (api_key : string) (model_id version_id : json)
  (w : world) :
  let rq := stop_request api_key model_id version_id in
  let rs := reply w rq in
  exists lv msg,
    stop_model_deployment api_key model_id version_id w
    = (Ok (status_code rs =? 200),
       emit_world (EvLog lv msg) (emit_world (EvHttp rq rs) w)).
Proof.
  run_wrapper.
Qed.

Lemma start_model_deployment_run (api_key : string)
  (model_id version_id : json) (w : world) :
  let rq := start_request api_key model_id version_id in
  let rs := reply w rq in
  exists lv msg,
    start_model_deployment api_key model_id version_id w
    = (Ok (status_code rs =? 200),
       emit_world (EvLog lv msg) (emit_world (EvHttp rq rs) w)).
Proof.
  run_wrapper.
Qed.

(** *** Actions that leave the files alone *)

Definition keeps_fs {A} (m : M A) : Prop := forall w, fs (snd (m w)) = fs w.

Lemma keeps_fs_ret {A} (a : A) : keeps_fs (ret a).
Proof. by intros w. Qed.

Lemma keeps_fs_lift {A} (r : result A) : keeps_fs (lift r).
Proof. by intros w. Qed.

Lemma keeps_fs_emit (e : event) : keeps_fs (emit e).
Proof. by intros w. Qed.

Lemma keeps_fs_bind {A B} (m : M A) (k : A -> M B) :
  keeps_fs m -> (forall a, keeps_fs (k a)) -> keeps_fs (bind m k).
Proof.
  intros Hm Hk w. unfold bind. specialize (Hm w).
  destruct (m w) as [[a|e] w1]; simpl in *; [|done].
  by rewrite Hk.
Qed.

Lemma keeps_fs_for_each {A} (xs : list A) (body : A -> M unit) :
  (forall x, keeps_fs (body x)) -> keeps_fs (for_each xs body).
Proof.
  intros Hbody. induction xs as [|x xs IH]; simpl.
  - apply keeps_fs_ret.
  - apply keeps_fs_bind; auto.
Qed.

Lemma keeps_fs_start_model_deployment (api_key : string) (m v : json) :
  keeps_fs (start_model_deployment api_key m v).
Proof.
  intros w.
  destruct (start_model_deployment_run api_key m v w) as (lv & msg & ->).
  reflexivity.
Qed.

Lemma keeps_fs_start_line (api_key : string) (line : string) :
  keeps_fs (start_line api_key line).
Proof.
  unfold start_line.
  destruct (split comma (strip line)) as [|a [|b [|c [|d rest]]]];
    try apply keeps_fs_lift.
  apply keeps_fs_bind; [apply keeps_fs_start_model_deployment|].
  intros []; [apply keeps_fs_emit | apply keeps_fs_ret].
Qed.

(** *** The loop of [start_models_from_file] *)

Lemma for_each_app {A} (xs ys : list A) (body : A -> M unit) (w : world) :
  for_each (xs ++ ys) body w
  = match for_each xs body w with
    | (Ok _, w1) => for_each ys body w1
    | (Raise e, w1) => (Raise e, w1)
    end.
Proof.
  revert w. induction xs as [|x xs IH]; intros w; simpl.
  - reflexivity.
  - unfold bind. destruct (body x w) as [[[]|e] w1]; [apply IH|done].
Qed.

Lemma start_line_ok (api_key : string) (line : string)
  (record : string * string * string) (w : world) :
  parse_line line = Some record ->
  exists evs w',
    start_line api_key line w = (Ok tt, w')
    /\ trace w' = trace w ++ evs
    /\ server w' = server w
    /\ requests_of evs = [record_start_request api_key record].
Proof.
  unfold parse_line, start_line.
  destruct (split comma (strip line)) as [|a [|b [|c [|d rest]]]];
    try discriminate.
  intros [= <-]. unfold bind.
  destruct (start_model_deployment_run api_key (JStr b) (JStr c) w)
    as (lv & msg & ->).
  destruct (status_code _ =? 200).
  - eexists [_; _; _], _. split; [reflexivity|]. simpl.
    by rewrite <- !app_assoc.
  - eexists [_; _], _. split; [reflexivity|]. simpl.
    by rewrite <- !app_assoc.
Qed.

Lemma start_line_bad (api_key : string) (line : string) (w : world) :
  parse_line line = None ->
  start_line api_key line w
  = (Raise (unpack_error (length (split comma (strip line)))), w).
Proof.
  unfold parse_line, start_line.
  by destruct (split comma (strip line)) as [|a [|b [|c [|d rest]]]].
Qed.

Lemma start_lines_ok (api_key : string) (lines : list string)
  (records : list (string * string * string)) (w : world) :
  mapM parse_line lines = Some records ->
  exists evs w',
    for_each lines (start_line api_key) w = (Ok tt, w')
    /\ trace w' = trace w ++ evs
    /\ server w' = server w
    /\ requests_of evs = map (record_start_request api_key) records.
Proof.
  rewrite mapM_Some. intros Hall. revert w.
  induction Hall as [|line record lines records Hline _ IH]; intros w.
  - exists [], w. simpl. by rewrite app_nil_r.
  - destruct (start_line_ok api_key line record w Hline)
      as (evs1 & w1 & Hrun1 & Htr1 & Hsrv1 & Hrq1).
    destruct (IH w1) as (evs2 & w2 & Hrun2 & Htr2 & Hsrv2 & Hrq2).
    exists (evs1 ++ evs2), w2. simpl. unfold bind. rewrite Hrun1, Hrun2.
    repeat split.
    + by rewrite Htr2, Htr1, app_assoc.
    + congruence.
    + by rewrite requests_of_app, Hrq1, Hrq2.
Qed.

(** *** The running-only filter of [show_models] *)

(** No item that iterating [models] delivers has the status "Running". *)
Definition no_running (models : json) : Prop :=
  forall items, py_iter models = Ok items ->
                Forall (fun model => is_running model = false) items.

Lemma running_items_none (items : list json) :
  Forall (fun model => is_running model = false) items ->
  running_items items = Ok [] \/ exists e, running_items items = Raise e.
Proof.
  induction 1 as [|model items Hmodel _ IH]; simpl; [by left|].
  unfold is_running in Hmodel.
  destruct (py_getitem model "activeVersionStatus") as [status|e]; simpl;
    [|by eauto].
  destruct IH as [-> | [e ->]]; simpl; [|by eauto].
  rewrite Hmodel. by left.
Qed.

(** *** The two loops of [stop_running_models] *)

Lemma filter_sublist {A} (f : A -> bool) (xs : list A) :
  sublist (List.filter f xs) xs.
Proof.
  induction xs as [|x xs IH]; simpl; [constructor|].
  destruct (f x); by constructor.
Qed.

Lemma stop_loop_run (api_key : string) (items : list json)
  (acc : list string) (w : world) :
  Forall well_formed_model items ->
  exists stopped evs w',
    stop_loop api_key items acc w = (Ok (acc ++ map model_record stopped), w')
    /\ trace w' = trace w ++ evs
    /\ fs w' = fs w
    /\ server w' = server w
    /\ sublist stopped (List.filter is_running items)
    /\ requests_of evs
       = map (model_stop_request api_key) (List.filter is_running items)
    /\ succeeded evs = map (model_stop_request api_key) stopped
    /\ Forall (fun e => is_file_event e = false) evs.
Proof.
  intros Hall. revert acc w.
  induction Hall as [|model items Hmodel _ IH]; intros acc w.
  - exists [], [], w. simpl. unfold ret. rewrite !app_nil_r.
    repeat split; constructor.
  - destruct Hmodel as (status & mid & vid & name & Hst & Hid & Hvid & Hname).
    simpl. unfold bind, lift, is_running. rewrite Hst.
    destruct (py_eq_str status "Running").
    + rewrite Hid, Hvid.
      destruct (stop_model_deployment_run api_key mid vid w)
        as (lv & msg & ->).
      assert (Hrq : stop_request api_key mid vid
                    = model_stop_request api_key model).
      { unfold model_stop_request, field. by rewrite Hid, Hvid. }
      rewrite Hrq.
      set (rq := model_stop_request api_key model).
      set (rs := reply w rq).
      set (w1 := emit_world (EvLog lv msg) (emit_world (EvHttp rq rs) w)).
      destruct (status_code rs =? 200) eqn:Hcode.
      * rewrite Hname.
        destruct (IH (acc ++ [py_str name +:+ "," +:+ py_str mid +:+ ","
                              +:+ py_str vid]) w1)
          as (stopped & evs & w' & Hrun & Htr & Hfs & Hsrv & Hsub & Hreq
              & Hsucc & Hfile).
        exists (model :: stopped), (EvHttp rq rs :: EvLog lv msg :: evs), w'.
        rewrite Hrun. repeat split; try done.
        -- f_equal. rewrite <- app_assoc. simpl. do 2 f_equal.
           unfold model_record, field. by rewrite Hname, Hid, Hvid.
        -- rewrite Htr. simpl. by rewrite <- !app_assoc.
        -- by constructor.
        -- simpl. by rewrite Hreq.
        -- simpl. by rewrite Hcode, Hsucc.
        -- by repeat constructor.
      * destruct (IH acc w1)
          as (stopped & evs & w' & Hrun & Htr & Hfs & Hsrv & Hsub & Hreq
              & Hsucc & Hfile).
        exists stopped, (EvHttp rq rs :: EvLog lv msg :: evs), w'.
        rewrite Hrun. repeat split; try done.
        -- rewrite Htr. simpl. by rewrite <- !app_assoc.
        -- by constructor.
        -- simpl. by rewrite Hreq.
        -- simpl. by rewrite Hcode, Hsucc.
        -- by repeat constructor.
    + destruct (IH acc w)
        as (stopped & evs & w' & Hrun & Htr & Hfs & Hsrv & Hsub & Hreq
            & Hsucc & Hfile).
      exists stopped, evs, w'. by rewrite Hrun.
Qed.

Lemma write_loop_run (path : string) (records : list string) (w : world)
  (old : string) :
  fs w !! path = Some old ->
  for_each records (fun model => file_write path (model +:+ NL)) w
  = (Ok tt,
     mkWorld (<[path := old +:+ record_lines records]> (fs w))
             (trace w ++ map (fun model => EvWrite path (model +:+ NL))
                             records)
             (server w)).
Proof.
  revert w old. induction records as [|record rest IH]; intros w old Hold.
  - simpl. unfold ret. rewrite append_empty_r, app_nil_r, insert_id by done.
    by destruct w.
  - simpl. unfold bind, file_write. rewrite Hold. simpl.
    rewrite (IH _ (old +:+ record +:+ NL)) by apply lookup_insert_eq.
    simpl. by rewrite insert_insert_eq, append_assoc, <- app_assoc.
Qed.

(** What [stop_running_models] does after its first loop, for the models
    it stopped. *)
Definition persisted_events (project_id project_name : json)
  (stopped : list json) : list event :=
  match stopped with
  | [] => []
  | _ =>
      EvOpen stopped_models_txt "a"
      :: map (fun model =>
                EvWrite stopped_models_txt (model_record model +:+ NL))
             stopped
      ++ [EvPrint ("Stopped models for Project ID: " +:+ py_str project_id
                   +:+ " and Name: " +:+ py_str project_name
                   +:+ ". Details logged in stopped_models.txt.")]
  end.

Lemma stop_running_models_run (api_key : string) (w : world)
  (project_id project_name : json) (rs : response) (models : list json) :
  reply w (models_request api_key project_id) = rs ->
  status_code rs = 200 ->
  json_body rs = Some (JArr models) ->
  Forall well_formed_model models ->
  exists stopped lv msg evs w',
    stop_running_models api_key project_id project_name w = (Ok tt, w')
    /\ sublist stopped (List.filter is_running models)
    /\ requests_of evs
       = map (model_stop_request api_key) (List.filter is_running models)
    /\ succeeded evs = map (model_stop_request api_key) stopped
    /\ Forall (fun e => is_file_event e = false) evs
    /\ trace w'
       = trace w
         ++ [EvHttp (models_request api_key project_id) rs; EvLog lv msg]
         ++ evs ++ persisted_events project_id project_name stopped
    /\ fs w'
       = match stopped with
         | [] => fs w
         | _ => <[stopped_models_txt :=
                    default EmptyString (fs w !! stopped_models_txt)
                    +:+ record_lines (map model_record stopped)]> (fs w)
         end.
Proof.
  intros Hreply Hcode Hbody Hall.
  unfold stop_running_models, bind.
  destruct (fetch_models_run api_key project_id w) as (lv & msg & ->).
  rewrite Hreply. unfold fetched, response_json. rewrite Hcode, Hbody. simpl.
  set (w1 := emit_world _ _).
  destruct models as [|model models'].
  { exists [], lv, msg, [], w1. simpl. unfold ret.
    repeat split; try constructor. by rewrite <- app_assoc. }
  set (models := model :: models') in *.
  unfold lift. simpl py_iter. cbv iota beta.
  destruct (stop_loop_run api_key models [] w1 Hall)
    as (stopped & evs & w2 & Hrun & Htr & Hfs & Hsrv & Hsub & Hreq & Hsucc
        & Hfile).
  rewrite Hrun, app_nil_l.
  exists stopped, lv, msg, evs.
  destruct stopped as [|first others].
  - exists w2. simpl. unfold ret. repeat split; try done.
    rewrite Htr. simpl. by rewrite app_nil_r, <- !app_assoc.
  - set (stopped := first :: others) in *.
    assert (Hne : map model_record stopped
                  = model_record first :: map model_record others) by done.
    rewrite Hne. cbv iota beta. rewrite <- Hne.
    erewrite write_loop_run by apply lookup_insert_eq.
    unfold print, emit. eexists. split; [reflexivity|].
    repeat split; try done.
    + simpl. rewrite Htr. simpl. rewrite map_map.
      by rewrite <- !app_assoc.
    + simpl. by rewrite insert_insert_eq, Hfs.
Qed.



Lemma record_writes_no_http (stopped : list json) :
  Forall (fun e => is_http_event e = false)
    (map (fun model => EvWrite stopped_models_txt (model_record model +:+ NL))
         stopped).
Proof. induction stopped; by constructor. Qed.

Lemma persisted_events_no_http (project_id project_name : json)
  (stopped : list json) :
  Forall (fun e => is_http_event e = false)
         (persisted_events project_id project_name stopped).
Proof.
  destruct stopped as [|m ms]; [constructor|].
  unfold persisted_events. constructor; [done|].
  apply Forall_app. split; [apply record_writes_no_http | by repeat constructor].
Qed.

Lemma no_http_requests (evs : list event) :
  Forall (fun e => is_http_event e = false) evs ->
  requests_of evs = [] /\ succeeded evs = [].
Proof.
  induction 1 as [|e evs He _ [IH1 IH2]]; [done|]. by destruct e.
Qed.


(** *** Actions whose events all satisfy a property *)

Definition emits (P : event -> Prop) {A} (m : M A) : Prop :=
  forall w, exists evs, trace (snd (m w)) = trace w ++ evs /\ Forall P evs.

(** An event that is not a GET request. *)
Definition no_get (e : event) : Prop :=
  match e with
  | EvHttp rq _ => is_get rq = false
  | _ => True
  end.

Lemma no_get_requests (evs : list event) :
  Forall no_get evs -> List.filter is_get (requests_of evs) = [].
Proof.
  induction 1 as [|e evs He _ IH]; [done|].
  destruct e; simpl in *; try done. by rewrite He.
Qed.

Section Emits.

Context (P : event -> Prop).

Lemma emits_ret {A} (a : A) : emits P (ret a).
Proof. intros w. exists []. simpl. by rewrite app_nil_r. Qed.

Lemma emits_lift {A} (r : result A) : emits P (lift r).
Proof. intros w. exists []. simpl. by rewrite app_nil_r. Qed.

Lemma emits_emit (e : event) : P e -> emits P (emit e).
Proof. intros He w. exists [e]. simpl. by repeat constructor. Qed.

Lemma emits_bind {A B} (m : M A) (k : A -> M B) :
  emits P m -> (forall a, emits P (k a)) -> emits P (bind m k).
Proof.
  intros Hm Hk w. unfold bind.
  destruct (Hm w) as (evs1 & Htr1 & Hall1).
  destruct (m w) as [[a|e] w1]; simpl in *; [|by eauto].
  destruct (Hk a w1) as (evs2 & Htr2 & Hall2).
  exists (evs1 ++ evs2). split.
  - by rewrite Htr2, Htr1, app_assoc.
  - by apply Forall_app.
Qed.

Lemma emits_for_each {A} (xs : list A) (body : A -> M unit) :
  (forall x, emits P (body x)) -> emits P (for_each xs body).
Proof.
  intros Hbody. induction xs as [|x xs IH]; simpl.
  - apply emits_ret.
  - apply emits_bind; auto.
Qed.

End Emits.

Ltac emits_step :=
  match goal with
  | |- emits _ (bind _ _) => apply emits_bind; [|intros ?]
  | |- emits _ (lift _) => apply emits_lift
  | |- emits _ (ret _) => apply emits_ret
  | |- emits _ (print _) => apply emits_emit; exact I
  | |- emits _ (logging_debug _) => apply emits_emit; exact I
  | |- emits _ (for_each _ _) => apply emits_for_each; intros ?
  | |- emits _ (if ?b then _ else _) => destruct b
  | |- emits _ (match ?x with _ => _ end) => destruct x
  end.

Lemma emits_file_write (path data : string) :
  emits no_get (file_write path data).
Proof. intros w. exists [EvWrite path data]. simpl. by repeat constructor. Qed.

Lemma emits_open_append (path : string) : emits no_get (open_append path).
Proof. intros w. exists [EvOpen path "a"]. simpl. by repeat constructor. Qed.

Lemma emits_stop_model_deployment (api_key : string) (m v : json) :
  emits no_get (stop_model_deployment api_key m v).
Proof.
  intros w.
  destruct (stop_model_deployment_run api_key m v w) as (lv & msg & ->).
  eexists [_; _]. simpl. split; [by rewrite <- app_assoc|].
  by repeat constructor.
Qed.

Lemma emits_stop_loop (api_key : string) (items : list json)
  (acc : list string) :
  emits no_get (stop_loop api_key items acc).
Proof.
  revert acc. induction items as [|model items IH]; intros acc; simpl.
  - apply emits_ret.
  - repeat first [apply IH | apply emits_stop_model_deployment | emits_step].
Qed.

Lemma emits_show_block (project_id project_name models : json) :
  emits no_get (show_block project_id project_name models).
Proof. unfold show_block, show_model, print_field. repeat emits_step. Qed.

(** An action that starts by fetching the models of a project sends that
    request, logs it, and goes on with the value fetched. *)
Lemma after_fetch_models {A} (api_key : string) (project_id : json)
  (k : json -> M A) (w : world) :
  (forall models, emits no_get (k models)) ->
  exists r lv msg evs w',
    bind (fetch_models api_key project_id) k w = (r, w')
    /\ trace w'
       = trace w
         ++ EvHttp (models_request api_key project_id)
                   (reply w (models_request api_key project_id))
            :: EvLog lv msg :: evs
    /\ Forall no_get evs.
Proof.
  intros Hk. unfold bind.
  destruct (fetch_models_run api_key project_id w) as (lv & msg & ->).
  destruct (fetched _) as [models|e].
  - set (w1 := emit_world _ _).
    destruct (Hk models w1) as (evs & Htr & Hall).
    exists (fst (k models w1)), lv, msg, evs, (snd (k models w1)).
    split; [by destruct (k models w1)|]. split; [|done].
    rewrite Htr. simpl. by rewrite <- !app_assoc.
  - eexists (Raise e), lv, msg, [], _. split; [done|]. split; [|done].
    simpl. by rewrite <- !app_assoc.
Qed.

(** ** The claims *)

(** C1. A response whose status is not 200 makes [fetch_projects] and
    [fetch_models] return the empty list and [stop_model_deployment] and
    [start_model_deployment] return [False]; each returns normally, having
    sent its one request and logged one record at error level. *)
Theorem non_200_is_absorbed (api_key : string) (w : world)
  (project_id model_id version_id : json) (rs : response) :
  status_code rs <> 200 ->
  (reply w (projects_request api_key) = rs ->
   exists msg,
     fetch_projects api_key w
     = (Ok (JArr []),
        emit_world (EvLog ERROR msg)
          (emit_world (EvHttp (projects_request api_key) rs) w)))
  /\ (reply w (models_request api_key project_id) = rs ->
      exists msg,
        fetch_models api_key project_id w
        = (Ok (JArr []),
           emit_world (EvLog ERROR msg)
             (emit_world (EvHttp (models_request api_key project_id) rs) w)))
  /\ (reply w (stop_request api_key model_id version_id) = rs ->
      exists msg,
        stop_model_deployment api_key model_id version_id w
        = (Ok false,
           emit_world (EvLog ERROR msg)
             (emit_world
                (EvHttp (stop_request api_key model_id version_id) rs) w)))
  /\ (reply w (start_request api_key model_id version_id) = rs ->
      exists msg,
        start_model_deployment api_key model_id version_id w
        = (Ok false,
           emit_world (EvLog ERROR msg)
             (emit_world
                (EvHttp (start_request api_key model_id version_id) rs) w))).
Proof.
  intros Hne. apply Z.eqb_neq in Hne.
  repeat split; intros <-;
    unfold fetch_projects, fetch_models, stop_model_deployment,
      start_model_deployment, bind, requests_get, requests_post;
    fold (projects_request api_key);
    fold (models_request api_key project_id);
    fold (stop_request api_key model_id version_id);
    fold (start_request api_key model_id version_id);
    rewrite Hne; simpl; eauto.
Qed.

(** C6. Without [stopped_models.txt], [start_models_from_file] returns
    normally after one [print] and nothing else: no request is sent. *)
Theorem start_without_file (api_key : string) (w : world) :
  fs w !! stopped_models_txt = None ->
  start_models_from_file api_key w
  = (Ok tt,
     emit_world (EvPrint "stopped_models.txt not found. No models to start.")
                w)
  /\ prints_of
       (trace (snd (start_models_from_file api_key w)))
     = prints_of (trace w)
       ++ ["stopped_models.txt not found. No models to start."]
  /\ requests_of (trace (snd (start_models_from_file api_key w)))
     = requests_of (trace w).
Proof.
  intros Hnone.
  assert (Hrun : start_models_from_file api_key w
    = (Ok tt,
       emit_world
         (EvPrint "stopped_models.txt not found. No models to start.") w)).
  { unfold start_models_from_file, bind, os_path_exists. rewrite Hnone.
    rewrite bool_decide_eq_false_2; [reflexivity|].
    intros [? ?]; discriminate. }
  rewrite Hrun. simpl. rewrite prints_of_app, requests_of_app. simpl.
  by rewrite app_nil_r.
Qed.

(** C7. [start_models_from_file] leaves every file as it found it, whether
    it returns or raises: [stopped_models.txt] in particular keeps its
    content, entries of started models included. *)
Theorem start_keeps_files (api_key : string) (w : world) :
  fs (snd (start_models_from_file api_key w)) = fs w.
Proof.
  revert w. change (keeps_fs (start_models_from_file api_key)).
  unfold start_models_from_file.
  apply keeps_fs_bind; [by intros w|].
  intros found. destruct found; simpl.
  - apply keeps_fs_bind.
    + intros w. unfold open_readlines.
      by destruct (fs w !! stopped_models_txt).
    + intros lines. apply keeps_fs_for_each, keeps_fs_start_line.
  - apply keeps_fs_emit.
Qed.

(** C9. An empty [DOMINO_USER_API_KEY] stops the program like a missing one:
    the same [ValueError] escapes, and nothing has been done by then,
    whatever the command line is and whatever the argument parser would
    have made of it. *)
Theorem empty_api_key_aborts (environ : gmap string string)
  (argv : list string) (w : world) :
  environ !! api_key_variable = Some EmptyString ->
  script environ argv w
  = (Raise (ValueError
       "API key is not set in the environment variable DOMINO_USER_API_KEY"),
     w)
  /\ script environ argv w
     = script (delete api_key_variable environ) argv w.
Proof.
  intros Hempty. unfold script, bind, lift, load_api_key.
  rewrite Hempty, lookup_delete_eq. by simpl.
Qed.

(** C2. With a persistence file whose K lines all have three fields,
    [start_models_from_file] returns normally having sent exactly K
    requests, the start request of each line, in the order of the file.
    This holds in every world, whatever was requested or printed before,
    and the dispatcher runs the same action for every project it is at. *)
Theorem start_issues_one_call_per_line (api_key : string) (w : world)
  (content : string) (records : list (string * string * string)) :
  fs w !! stopped_models_txt = Some content ->
  mapM parse_line (readlines content) = Some records ->
  (exists evs w',
     start_models_from_file api_key w = (Ok tt, w')
     /\ trace w' = trace w ++ evs
     /\ requests_of evs = map (record_start_request api_key) records
     /\ length (requests_of evs) = length (readlines content))
  /\ (forall project_id project_name : json,
        dispatch api_key "start" project_id project_name w
        = start_models_from_file api_key w).
Proof.
  intros Hfile Hlines. split; [|reflexivity].
  destruct (start_lines_ok api_key _ _ (emit_world (EvOpen stopped_models_txt "r") w) Hlines)
    as (evs & w' & Hrun & Htr & _ & Hrq).
  exists (EvOpen stopped_models_txt "r" :: evs), w'.
  unfold start_models_from_file, bind, os_path_exists, open_readlines.
  rewrite Hfile. rewrite bool_decide_eq_true_2 by eauto. simpl.
  rewrite Hfile, Hrun. repeat split.
  - rewrite Htr. simpl. by rewrite <- app_assoc.
  - done.
  - rewrite Hrq, length_map. symmetry. by eapply length_mapM.
Qed.

(** C4. When a line of the persistence file does not have three fields,
    the [ValueError] of the unpacking escapes from
    [start_models_from_file]; the start requests of the lines before it have
    been sent, and none for the lines after it. *)
Theorem start_stops_at_malformed_line (api_key : string) (w : world)
  (content : string) (before after : list string) (bad : string)
  (records : list (string * string * string)) :
  fs w !! stopped_models_txt = Some content ->
  readlines content = before ++ bad :: after ->
  mapM parse_line before = Some records ->
  parse_line bad = None ->
  exists evs w',
    start_models_from_file api_key w
    = (Raise (unpack_error (length (split comma (strip bad)))), w')
    /\ trace w' = trace w ++ evs
    /\ requests_of evs = map (record_start_request api_key) records
    /\ length (requests_of evs) = length before.
Proof.
  intros Hfile Hlines Hbefore Hbad.
  destruct (start_lines_ok api_key _ _ (emit_world (EvOpen stopped_models_txt "r") w) Hbefore)
    as (evs & w' & Hrun & Htr & _ & Hrq).
  exists (EvOpen stopped_models_txt "r" :: evs), w'.
  unfold start_models_from_file, bind, os_path_exists, open_readlines.
  rewrite Hfile. rewrite bool_decide_eq_true_2 by eauto. simpl.
  rewrite Hfile, Hlines, for_each_app, Hrun. simpl. unfold bind.
  rewrite start_line_bad by done. repeat split.
  - rewrite Htr. simpl. by rewrite <- app_assoc.
  - done.
  - rewrite Hrq, length_map. symmetry. by eapply length_mapM.
Qed.

(** C5. When no fetched model has the status "Running", [show_models] with
    the running-only filter prints nothing at all, no project header either:
    its trace is the request for the models and the log record of that
    request. *)
Theorem show_running_is_silent (api_key : string) (w : world)
  (project_id project_name : json) :
  (forall models,
     fetched (reply w (models_request api_key project_id)) = Ok models ->
     no_running models) ->
  (exists r lv msg,
     show_models api_key project_id project_name true w
     = (r, emit_world (EvLog lv msg)
             (emit_world
                (EvHttp (models_request api_key project_id)
                        (reply w (models_request api_key project_id))) w)))
  /\ prints_of (trace (snd (show_models api_key project_id project_name
                                        true w)))
     = prints_of (trace w).
Proof.
  intros Hnone.
  assert (Hrun : exists r lv msg,
     show_models api_key project_id project_name true w
     = (r, emit_world (EvLog lv msg)
             (emit_world
                (EvHttp (models_request api_key project_id)
                        (reply w (models_request api_key project_id))) w))).
  { unfold show_models, bind.
    destruct (fetch_models_run api_key project_id w) as (lv & msg & ->).
    destruct (fetched _) as [models|e] eqn:Hfetched; [|by eauto].
    destruct (py_truthy models); [|by eauto].
    unfold lift, running_only.
    destruct (py_iter models) as [items|e] eqn:Hiter; simpl; [|by eauto].
    destruct (running_items_none items) as [-> | [e ->]]; eauto.
    by apply (Hnone models). }
  split; [done|].
  destruct Hrun as (r & lv & msg & ->). simpl.
  rewrite !prints_of_app. simpl. by rewrite !app_nil_r.
Qed.



(** C8. For a project whose fetched model list is not empty, the loop body
    of [main] sends the request for the models of the project, logs and
    prints its banner, and hands over to the operation without passing the
    list on; for show-all, show-running and stop the operation starts by
    sending the same request again and works from the response to that
    second request.  No third such request is sent: the two are the only
    GET requests of the loop body. *)
Theorem dispatcher_fetches_models_twice (api_key : string) (w : world)
  (operation : string) (project project_id project_name models : json) :
  py_getitem project "id" = Ok project_id ->
  py_getitem project "name" = Ok project_name ->
  fetched (reply w (models_request api_key project_id)) = Ok models ->
  py_truthy models = true ->
  operation = "show-all" \/ operation = "show-running" \/ operation = "stop" ->
  exists lv1 msg1 msg2 line,
    let rq := models_request api_key project_id in
    let w1 :=
      emit_world (EvPrint line)
        (emit_world (EvLog DEBUG msg2)
           (emit_world (EvLog lv1 msg1)
              (emit_world (EvHttp rq (reply w rq)) w))) in
    main_project api_key operation project w
    = dispatch api_key operation project_id project_name w1
    /\ exists r lv2 msg3 evs w',
         dispatch api_key operation project_id project_name w1 = (r, w')
         /\ trace w'
            = trace w1 ++ EvHttp rq (reply w1 rq) :: EvLog lv2 msg3 :: evs
         /\ List.filter is_get (requests_of evs) = []
         /\ List.filter is_get
              (requests_of (drop (length (trace w)) (trace w')))
            = [rq; rq].
Proof.
  intros Hid Hname Hfetched Htruthy Hop.
  destruct (fetch_models_run api_key project_id w) as (lv1 & msg1 & Hrun1).
  eexists lv1, msg1, _, _. cbv zeta. split.
  { unfold main_project, bind, lift. rewrite Hid, Hname, Hrun1, Hfetched.
    rewrite Htruthy. reflexivity. }
  set (rq := models_request api_key project_id).
  set (w1 := emit_world (EvPrint _) _).
  assert (Hop_run : exists r lv2 msg3 evs w',
    dispatch api_key operation project_id project_name w1 = (r, w')
    /\ trace w'
       = trace w1 ++ EvHttp rq (reply w1 rq) :: EvLog lv2 msg3 :: evs
    /\ Forall no_get evs).
  { destruct Hop as [-> | [-> | ->]]; simpl dispatch;
      unfold show_models, stop_running_models;
      apply after_fetch_models; intros models2;
      repeat first
        [ apply emits_show_block | apply emits_stop_loop
        | apply emits_open_append | apply emits_file_write | emits_step ]. }
  destruct Hop_run as (r & lv2 & msg3 & evs & w' & Hrun & Htr & Hall).
  exists r, lv2, msg3, evs, w'. split_and!; try done.
  - by apply no_get_requests.
  - rewrite Htr. subst w1. simpl. rewrite <- !app_assoc.
    rewrite drop_app_length. simpl.
    by rewrite (no_get_requests evs Hall).
Qed.

End Runtime.

(** ** Worked instances

    One project, one model, a server that answers every GET with the model
    list and every POST with the given status. *)

Definition sample_repr : json -> string := fun _ => "<value>".

Definition sample_format_timestamp : json -> result string :=
  fun _ => Ok "2023-11-14 22:13:20".

Definition sample_parse_args (argv : list string) : result string :=
  match argv with
  | [operation] => Ok operation
  | _ => Raise (SystemExit 2)
  end.

Definition sample_model (status : string) : json :=
  JObj [("id", JStr "m1"); ("name", JStr "churn");
        ("activeModelVersionId", JStr "v1");
        ("activeVersionStatus", JStr status)].

Definition sample_project : json := JObj [("id", JInt 1); ("name", JStr "P")].

Definition sample_server (status : string) (post_status : Z)
  : list request -> request -> response :=
  fun _ rq =>
    match req_method rq with
    | GET => mkResponse 200 (Some (JArr [sample_model status]))
    | POST => mkResponse post_status None
    end.

Definition failing_server : list request -> request -> response :=
  fun _ _ => mkResponse 500 None.

Definition sample_world (status : string) (post_status : Z) : world :=
  mkWorld ∅ [] (sample_server status post_status).

Definition failing_world : world := mkWorld ∅ [] failing_server.

(** A world whose persistence file holds [content]. *)
Definition world_with_file (content : string) : world :=
  mkWorld {[ "stopped_models.txt" := content ]} [] (sample_server "Stopped" 200).

Definition one_record : string := "churn,m1,v1" +:+ NL.

Definition broken_file : string :=
  "churn,m1,v1" +:+ NL +:+ "no commas here" +:+ NL +:+ "fraud,m2,v2" +:+ NL.

Lemma non_200_is_absorbed_witness :
  status_code (mkResponse 500 None) <> 200
  /\ exists msg,
       fetch_projects "key" failing_world
       = (Ok (JArr []),
          emit_world (EvLog ERROR msg)
            (emit_world (EvHttp (projects_request "key")
                                (mkResponse 500 None)) failing_world)).
Proof.
  assert (H : status_code (mkResponse 500 None) <> 200) by (simpl; lia).
  split; [exact H|].
  exact (proj1 (non_200_is_absorbed sample_repr "key" failing_world
                  (JInt 1) (JStr "m1") (JStr "v1") (mkResponse 500 None) H)
               eq_refl).
Defined.

Lemma start_issues_one_call_per_line_witness :
  exists evs w',
    start_models_from_file sample_repr "key" (world_with_file one_record)
    = (Ok tt, w')
    /\ trace w' = trace (world_with_file one_record) ++ evs
    /\ requests_of evs
       = map (record_start_request sample_repr "key") [("churn", "m1", "v1")]
    /\ length (requests_of evs) = length (readlines one_record).
Proof.
  exact (proj1 (start_issues_one_call_per_line sample_repr
                  sample_format_timestamp "key" (world_with_file one_record)
                  one_record [("churn", "m1", "v1")] eq_refl eq_refl)).
Defined.

Lemma start_stops_at_malformed_line_witness :
  exists evs w',
    start_models_from_file sample_repr "key" (world_with_file broken_file)
    = (Raise (unpack_error 1), w')
    /\ trace w' = trace (world_with_file broken_file) ++ evs
    /\ requests_of evs
       = map (record_start_request sample_repr "key") [("churn", "m1", "v1")]
    /\ length (requests_of evs) = 1%nat.
Proof.
  exact (start_stops_at_malformed_line sample_repr "key"
           (world_with_file broken_file) broken_file
           ["churn,m1,v1" +:+ NL] ["fraud,m2,v2" +:+ NL]
           ("no commas here" +:+ NL) [("churn", "m1", "v1")]
           eq_refl eq_refl eq_refl eq_refl).
Defined.

Lemma start_without_file_witness :
  fs failing_world !! stopped_models_txt = None
  /\ start_models_from_file sample_repr "key" failing_world
     = (Ok tt,
        emit_world
          (EvPrint "stopped_models.txt not found. No models to start.")
          failing_world).
Proof.
  split; [reflexivity|].
  exact (proj1 (start_without_file sample_repr "key" failing_world eq_refl)).
Defined.

Lemma empty_api_key_aborts_witness :
  script sample_repr sample_format_timestamp sample_parse_args
         {[ "DOMINO_USER_API_KEY" := EmptyString ]} ["stop"] failing_world
  = (Raise (ValueError
       "API key is not set in the environment variable DOMINO_USER_API_KEY"),
     failing_world).
Proof.
  exact (proj1 (empty_api_key_aborts sample_repr sample_format_timestamp
                  sample_parse_args
                  {[ "DOMINO_USER_API_KEY" := EmptyString ]} ["stop"]
                  failing_world eq_refl)).
Defined.

Lemma sample_model_well_formed (status : string) :
  well_formed_model (sample_model status).
Proof.
  exists (JStr status), (JStr "m1"), (JStr "v1"), (JStr "churn").
  repeat split; reflexivity.
Defined.



Lemma show_running_is_silent_witness :
  prints_of (trace (snd (show_models sample_repr sample_format_timestamp
                           "key" (JInt 1) (JStr "P") true
                           (sample_world "Stopped" 200))))
  = prints_of (trace (sample_world "Stopped" 200)).
Proof.
  refine (proj2 (show_running_is_silent sample_repr sample_format_timestamp
                   "key" (sample_world "Stopped" 200) (JInt 1) (JStr "P") _)).
  intros models Hfetched.
  change (Ok (JArr [sample_model "Stopped"]) = Ok models) in Hfetched.
  injection Hfetched as <-. intros items Hitems.
  injection Hitems as <-. constructor; [reflexivity | constructor].
Defined.

Lemma dispatcher_fetches_models_twice_witness :
  exists w1 r w',
    main_project sample_repr sample_format_timestamp "key" "stop"
                 sample_project (sample_world "Running" 200)
    = dispatch sample_repr sample_format_timestamp "key" "stop" (JInt 1)
               (JStr "P") w1
    /\ dispatch sample_repr sample_format_timestamp "key" "stop" (JInt 1)
                (JStr "P") w1
       = (r, w')
    /\ List.filter is_get
         (requests_of
            (drop (length (trace (sample_world "Running" 200))) (trace w')))
       = [models_request sample_repr "key" (JInt 1);
          models_request sample_repr "key" (JInt 1)].
Proof.
  destruct (dispatcher_fetches_models_twice sample_repr
              sample_format_timestamp "key" (sample_world "Running" 200)
              "stop" sample_project (JInt 1) (JStr "P")
              (JArr [sample_model "Running"]) eq_refl eq_refl eq_refl eq_refl
              (or_intror (or_intror eq_refl)))
    as (lv1 & msg1 & msg2 & line & Hbody & r & lv2 & msg3 & evs & w' & Hrun
        & _ & _ & Hgets).
  eexists _, r, w'. split; [exact Hbody|]. split; [exact Hrun | exact Hgets].
Defined.

(** ** The scenario of the specification, evaluated

    One project with one running model [m1] at version [v1]: [stop] sends
    one stop request and records the model; [start] then sends one start
    request from the record. *)

Example stop_records_the_model :
  let w' := snd (stop_running_models sample_repr "key" (JInt 1) (JStr "P")
                                      (sample_world "Running" 200)) in
  fs w' !! stopped_models_txt = Some one_record
  /\ map req_url (requests_of (trace w'))
     = ["https://prod-field.cs.domino.tech/v4/modelManager/getModels?projectId=1";
        "https://prod-field.cs.domino.tech/v4/models/m1/v1/stopModelDeployment"].
Proof. split; reflexivity. Qed.

Example failed_stop_records_nothing :
  let w' := snd (stop_running_models sample_repr "key" (JInt 1) (JStr "P")
                                      (sample_world "Running" 503)) in
  fs w' = ∅ /\ writes_of (trace w') = [].
Proof. split; reflexivity. Qed.

Example start_reads_the_record :
  let w' := snd (start_models_from_file sample_repr "key"
                                         (world_with_file one_record)) in
  map req_url (requests_of (trace w'))
  = ["https://prod-field.cs.domino.tech/v4/models/m1/v1/startModelDeployment"]
  /\ prints_of (trace w')
     = ["Successfully started model 'churn' with ID m1 and Version ID v1"]
  /\ fs w' = fs (world_with_file one_record).
Proof. repeat split; reflexivity. Qed.

(** A whole [start] run of the program: the dispatcher fetches the projects
    and the models of the one project, then the persistence file is read. *)
Example start_run_of_the_program :
  let '(r, w') :=
    script sample_repr sample_format_timestamp sample_parse_args
           {[ "DOMINO_USER_API_KEY" := "key" ]} ["start"]
           (world_with_file one_record) in
  r = Ok tt
  /\ map req_url (requests_of (trace w'))
     = ["https://prod-field.cs.domino.tech/v4/projects";
        "https://prod-field.cs.domino.tech/v4/modelManager/getModels?projectId=m1";
        "https://prod-field.cs.domino.tech/v4/models/m1/v1/startModelDeployment"].
Proof. vm_compute. split; reflexivity. Qed.

(** [main] runs the operation once for each project that has models: with
    two such projects and a persistence file of one line, a [start] run
    reads the file twice and sends the start request twice. *)
Definition two_projects_server : list request -> request -> response :=
  fun _ rq =>
    match req_method rq with
    | GET =>
        if String.eqb (req_url rq)
                      "https://prod-field.cs.domino.tech/v4/projects"
        then mkResponse 200
               (Some (JArr [JObj [("id", JInt 1); ("name", JStr "P")];
                            JObj [("id", JInt 2); ("name", JStr "Q")]]))
        else mkResponse 200 (Some (JArr [sample_model "Stopped"]))
    | POST => mkResponse 200 None
    end.

Example start_run_with_two_projects :
  let w' :=
    snd (script sample_repr sample_format_timestamp sample_parse_args
                {[ "DOMINO_USER_API_KEY" := "key" ]} ["start"]
                (mkWorld {[ "stopped_models.txt" := one_record ]} []
                         two_projects_server)) in
  map req_url (List.filter (fun rq => negb (is_get rq))
                           (requests_of (trace w')))
  = ["https://prod-field.cs.domino.tech/v4/models/m1/v1/startModelDeployment";
     "https://prod-field.cs.domino.tech/v4/models/m1/v1/startModelDeployment"].
Proof. vm_compute. reflexivity. Qed.

(** The operation works from its own fetch: a server that lists the model
    on the first request only makes [main] announce the operation, and
    [show_models] print nothing under the banner. *)
Definition forgetful_server : list request -> request -> response :=
  fun earlier _ =>
    match earlier with
    | [] => mkResponse 200 (Some (JArr [sample_model "Running"]))
    | _ => mkResponse 200 (Some (JArr []))
    end.

Example show_all_uses_the_second_response :
  let w' :=
    snd (main_project sample_repr sample_format_timestamp "key" "show-all"
                      sample_project (mkWorld ∅ [] forgetful_server)) in
  prints_of (trace w')
  = ["Performing operation 'show-all' on Project ID: 1 and Name: P"]
  /\ length (requests_of (trace w')) = 2%nat.
Proof. vm_compute. split; reflexivity. Qed.

(** * Beyond the claims

    ** Records of the persistence file: what is accepted, what comes back *)

Fixpoint count_char (c : ascii) (s : string) : nat :=
  match s with
  | EmptyString => 0
  | String c' s' =>
      if Ascii.eqb c' c then S (count_char c s') else count_char c s'
  end.

(** No line end inside [s]. *)
Definition no_line_end (s : string) : Prop :=
  count_char LF s = 0%nat /\ count_char CR s = 0%nat.

(** The three fields of a record can be read back: none holds a comma or a
    line end, the name does not start with white space and the version id
    does not end with it. *)
Definition clean_fields (name model_id version_id : string) : Prop :=
  count_char comma name = 0%nat
  /\ count_char comma model_id = 0%nat
  /\ count_char comma version_id = 0%nat
  /\ no_line_end name /\ no_line_end model_id /\ no_line_end version_id
  /\ lstrip name = name
  /\ rstrip version_id = version_id.

Lemma count_char_app (c : ascii) (a b : string) :
  count_char c (a +:+ b) = (count_char c a + count_char c b)%nat.
Proof.
  induction a as [|ch a IH]; [reflexivity|].
  change (count_char c (String ch (a +:+ b))
          = (count_char c (String ch a) + count_char c b)%nat).
  simpl. destruct (Ascii.eqb ch c); rewrite IH; reflexivity.
Qed.

Lemma split_length (sep : ascii) (s : string) :
  length (split sep s) = S (count_char sep s).
Proof.
  induction s as [|c s IH]; simpl; [reflexivity|].
  destruct (Ascii.eqb c sep); simpl; [by rewrite IH|].
  destruct (split sep s) as [|p ps]; [discriminate|exact IH].
Qed.

Lemma count_char_lstrip (c : ascii) (s : string) :
  is_space c = false -> count_char c (lstrip s) = count_char c s.
Proof.
  intros Hc. induction s as [|ch s IH]; simpl; [reflexivity|].
  destruct (is_space ch) eqn:Hch; [|reflexivity].
  destruct (Ascii.eqb_spec ch c) as [->|_]; [congruence|exact IH].
Qed.

Lemma count_char_rstrip (c : ascii) (s : string) :
  is_space c = false -> count_char c (rstrip s) = count_char c s.
Proof.
  intros Hc. induction s as [|ch s IH]; simpl; [reflexivity|].
  destruct (rstrip s) as [|r0 r] eqn:Hr.
  - simpl in IH. rewrite <- IH.
    destruct (is_space ch) eqn:Hch; simpl.
    + destruct (Ascii.eqb_spec ch c) as [->|_]; [congruence|reflexivity].
    + by destruct (Ascii.eqb ch c).
  - change (count_char c (String ch (String r0 r)))
      with (if Ascii.eqb ch c then S (count_char c (String r0 r))
            else count_char c (String r0 r)).
    by rewrite IH.
Qed.

Lemma split_strip_length (line : string) :
  length (split comma (strip line)) = S (count_char comma line).
Proof.
  rewrite split_length. unfold strip.
  by rewrite count_char_rstrip, count_char_lstrip.
Qed.

(** X1. A line of the persistence file is accepted by the unpacking in
    [start_models_from_file] exactly when it holds two commas. *)
Theorem parse_line_accepts_two_commas (line : string) :
  is_Some (parse_line line) <-> count_char comma line = 2%nat.
Proof.
  pose proof (split_strip_length line) as Hlen.
  unfold parse_line.
  destruct (split comma (strip line)) as [|a [|b [|c [|d rest]]]];
    simpl in Hlen; split; intros H;
    try (destruct H; discriminate); try lia; eauto.
Qed.

Lemma split_no_sep (sep : ascii) (a : string) :
  count_char sep a = 0%nat -> split sep a = [a].
Proof.
  induction a as [|c a IH]; simpl; [reflexivity|].
  destruct (Ascii.eqb c sep); [discriminate|].
  intros H. by rewrite IH.
Qed.

Lemma split_app_sep (sep : ascii) (a rest : string) :
  count_char sep a = 0%nat ->
  split sep (a +:+ String sep rest) = a :: split sep rest.
Proof.
  induction a as [|c a IH]; intros H.
  - change (split sep (String sep rest) = EmptyString :: split sep rest).
    simpl. by rewrite Ascii.eqb_refl.
  - change (split sep (String c (a +:+ String sep rest))
            = String c a :: split sep rest).
    simpl in *. destruct (Ascii.eqb c sep); [discriminate|].
    by rewrite IH.
Qed.

Lemma lstrip_length (s : string) :
  (String.length (lstrip s) <= String.length s)%nat.
Proof.
  induction s as [|c s IH]; simpl; [lia|].
  destruct (is_space c); simpl; lia.
Qed.

Lemma lstrip_before_comma (name rest : string) :
  lstrip name = name ->
  lstrip (name +:+ String comma rest) = name +:+ String comma rest.
Proof.
  destruct name as [|c name]; intros H; [reflexivity|].
  change (lstrip (String c (name +:+ String comma rest))
          = String c (name +:+ String comma rest)).
  simpl in *. destruct (is_space c); [|reflexivity].
  pose proof (lstrip_length name) as Hlen. rewrite H in Hlen.
  simpl in Hlen. lia.
Qed.

Lemma rstrip_app (s t : string) :
  rstrip t = t -> t <> EmptyString -> rstrip (s +:+ t) = s +:+ t.
Proof.
  intros Ht Hne. induction s as [|c s IH]; [exact Ht|].
  change (rstrip (String c (s +:+ t)) = String c (s +:+ t)).
  simpl. rewrite IH. destruct (s +:+ t) eqn:Hst; [|reflexivity].
  destruct s; [|discriminate].
  change (t = EmptyString) in Hst. contradiction.
Qed.

Lemma rstrip_after_comma (version_id : string) :
  rstrip version_id = version_id ->
  rstrip (String comma version_id) = String comma version_id.
Proof. intros H. simpl. rewrite H. by destruct version_id. Qed.

Lemma rstrip_line_end (s : string) : rstrip (s +:+ NL) = rstrip s.
Proof.
  induction s as [|c s IH]; [reflexivity|].
  change (rstrip (String c (s +:+ NL)) = rstrip (String c s)).
  simpl. by rewrite IH.
Qed.

Lemma parse_clean_record (name model_id version_id : string) :
  clean_fields name model_id version_id ->
  parse_line ((name +:+ "," +:+ model_id +:+ "," +:+ version_id) +:+ NL)
  = Some (name, model_id, version_id).
Proof.
  intros (Hn & Hi & Hv & _ & _ & _ & Hl & Hr).
  unfold parse_line, strip.
  change ("," +:+ model_id +:+ "," +:+ version_id)
    with (String comma (model_id +:+ String comma version_id)).
  rewrite append_assoc.
  change (String comma (model_id +:+ String comma version_id) +:+ NL)
    with (String comma ((model_id +:+ String comma version_id) +:+ NL)).
  rewrite lstrip_before_comma by done.
  change (String comma ((model_id +:+ String comma version_id) +:+ NL))
    with (String comma (model_id +:+ String comma version_id) +:+ NL).
  rewrite <- append_assoc, rstrip_line_end.
  assert (Hrec : name +:+ String comma (model_id +:+ String comma version_id)
                 = (name +:+ String comma model_id)
                   +:+ String comma version_id).
  { change (String comma (model_id +:+ String comma version_id))
      with (String comma model_id +:+ String comma version_id).
    by rewrite append_assoc. }
  rewrite Hrec, rstrip_app, <- Hrec
    by (try apply rstrip_after_comma; done).
  rewrite split_app_sep, split_app_sep, split_no_sep by done.
  reflexivity.
Qed.

Lemma readlines_line (record rest : string) :
  no_line_end record ->
  readlines ((record +:+ NL) +:+ rest) = (record +:+ NL) :: readlines rest.
Proof.
  intros [Hlf Hcr]. induction record as [|c record IH].
  - reflexivity.
  - change (readlines (String c ((record +:+ NL) +:+ rest))
            = String c (record +:+ NL) :: readlines rest).
    simpl in *.
    destruct (Ascii.eqb c LF); [discriminate|].
    destruct (Ascii.eqb c CR); [discriminate|].
    by rewrite IH.
Qed.

Lemma readlines_record_lines (records : list string) :
  Forall no_line_end records ->
  readlines (record_lines records)
  = map (fun record => record +:+ NL) records.
Proof.
  induction 1 as [|record records Hrecord _ IH]; [reflexivity|].
  simpl. by rewrite readlines_line, IH.
Qed.

(** X2. A record written by [stop_running_models] for clean fields is read
    back by [start_models_from_file] as the same three fields. *)
Theorem record_round_trip (name model_id version_id : string) :
  clean_fields name model_id version_id ->
  readlines ((name +:+ "," +:+ model_id +:+ "," +:+ version_id) +:+ NL)
  = [(name +:+ "," +:+ model_id +:+ "," +:+ version_id) +:+ NL]
  /\ parse_line ((name +:+ "," +:+ model_id +:+ "," +:+ version_id) +:+ NL)
     = Some (name, model_id, version_id).
Proof.
  intros Hclean. split; [|by apply parse_clean_record].
  destruct Hclean as (_ & _ & _ & [Hn1 Hn2] & [Hi1 Hi2] & [Hv1 Hv2] & _).
  rewrite <- (append_empty_r (_ +:+ NL)) at 1.
  rewrite readlines_line; [reflexivity|].
  split; rewrite !count_char_app; simpl; lia.
Qed.


(** ** The operations and the dispatcher *)

Section Coverage.

Context (py_repr : json -> string)
        (format_timestamp : json -> result string)
        (parse_args : list string -> result string)
        (api_key : string).

(** The world after [fetch_models]: the request and its log record. *)
Lemma fetch_models_world (project_id : json) (w : world) :
  exists lv msg,
    snd (fetch_models py_repr api_key project_id w)
    = emit_world (EvLog lv msg)
        (emit_world
           (EvHttp (models_request py_repr api_key project_id)
                   (reply w (models_request py_repr api_key project_id))) w)
    /\ fst (fetch_models py_repr api_key project_id w)
       = fetched (reply w (models_request py_repr api_key project_id)).
Proof.
  destruct (fetch_models_run py_repr api_key project_id w)
    as (lv & msg & ->). by exists lv, msg.
Qed.

(** X4. On status 200 [fetch_projects] and [fetch_models] hand the decoded
    body to the caller as it is, a list or not, after one DEBUG record; when
    the body is not JSON the decoding error escapes from them. *)
Theorem fetch_returns_the_body (w : world) (project_id : json)
  (rs : response) :
  status_code rs = 200 ->
  (reply w (projects_request api_key) = rs ->
   exists msg,
     fetch_projects api_key w
     = (match json_body rs with
        | Some body => Ok body
        | None => Raise JSONDecodeError
        end,
        emit_world (EvLog DEBUG msg)
          (emit_world (EvHttp (projects_request api_key) rs) w)))
  /\ (reply w (models_request py_repr api_key project_id) = rs ->
      exists msg,
        fetch_models py_repr api_key project_id w
        = (match json_body rs with
           | Some body => Ok body
           | None => Raise JSONDecodeError
           end,
           emit_world (EvLog DEBUG msg)
             (emit_world
                (EvHttp (models_request py_repr api_key project_id) rs) w))).
Proof.
  intros Hcode.
  split; intros <-;
    unfold fetch_projects, fetch_models, bind, requests_get;
    fold (projects_request api_key);
    fold (models_request py_repr api_key project_id);
    rewrite Hcode; simpl; eauto.
Qed.

(** X5. A failed fetch of the models counts as no models: [show_models]
    (with or without the filter) and [stop_running_models] return normally
    having sent the one request and logged the failure; nothing is printed,
    no stop request is sent and no file is touched. *)
Theorem failed_fetch_means_no_models (w : world)
  (project_id project_name : json) (show_running_only : bool) :
  status_code (reply w (models_request py_repr api_key project_id)) <> 200 ->
  exists msg,
    let w' :=
      emit_world (EvLog ERROR msg)
        (emit_world
           (EvHttp (models_request py_repr api_key project_id)
                   (reply w (models_request py_repr api_key project_id))) w)
    in
    show_models py_repr format_timestamp api_key project_id project_name
                show_running_only w
    = (Ok tt, w')
    /\ stop_running_models py_repr api_key project_id project_name w
       = (Ok tt, w').
Proof.
  intros Hcode. apply Z.eqb_neq in Hcode.
  assert (Hfetch : exists msg,
    fetch_models py_repr api_key project_id w
    = (Ok (JArr []),
       emit_world (EvLog ERROR msg)
         (emit_world
            (EvHttp (models_request py_repr api_key project_id)
                    (reply w (models_request py_repr api_key project_id)))
            w))).
  { unfold fetch_models, bind, requests_get.
    fold (models_request py_repr api_key project_id).
    rewrite Hcode. simpl. eauto. }
  destruct Hfetch as (msg & Hfetch). exists msg. cbv zeta.
  unfold show_models, stop_running_models, bind. rewrite Hfetch.
  split; reflexivity.
Qed.

(** X6. The loop body of [main] passes over a project whose fetched models
    are empty or false (a failed fetch included): no banner is logged or
    printed and no operation runs, whatever the operation is. *)
Theorem project_without_models_is_skipped (w : world) (operation : string)
  (project project_id project_name models : json) :
  py_getitem project "id" = Ok project_id ->
  py_getitem project "name" = Ok project_name ->
  fetched (reply w (models_request py_repr api_key project_id)) = Ok models ->
  py_truthy models = false ->
  exists lv msg,
    main_project py_repr format_timestamp api_key operation project w
    = (Ok tt,
       emit_world (EvLog lv msg)
         (emit_world
            (EvHttp (models_request py_repr api_key project_id)
                    (reply w (models_request py_repr api_key project_id)))
            w)).
Proof.
  intros Hid Hname Hfetched Hfalse.
  destruct (fetch_models_run py_repr api_key project_id w)
    as (lv & msg & Hrun).
  exists lv, msg. unfold main_project, bind, lift.
  by rewrite Hid, Hname, Hrun, Hfetched, Hfalse.
Qed.

Lemma reply_same_requests (w w' : world) (rq : request) :
  server w' = server w ->
  requests_of (trace w') = requests_of (trace w) ->
  reply w' rq = reply w rq.
Proof. unfold reply. by intros -> ->. Qed.

(** The world in which [main] fetches the projects: the old log file is
    gone and the log file is open. *)
Definition log_opened (w : world) : world :=
  snd (logging_basicConfig model_manage_log_txt
         (snd (bind (os_path_exists model_manage_log_txt)
                 (fun found =>
                    if (found : bool) then os_remove model_manage_log_txt
                    else ret tt) w))).

(** What [main] does once the arguments are parsed and the log is open. *)
Definition main_after_log (operation : string) : M unit :=
  bind (fetch_projects api_key)
    (fun projects =>
       if negb (py_truthy projects) then print "No projects found."
       else
         bind (lift (py_iter projects))
           (fun items =>
              for_each items
                (main_project py_repr format_timestamp api_key operation))).

Lemma main_run (argv : list string) (operation : string) (w : world) :
  parse_args argv = Ok operation ->
  main py_repr format_timestamp parse_args api_key argv w
  = main_after_log operation (log_opened w).
Proof.
  intros Hargs. unfold main. unfold bind at 1. unfold lift at 1.
  rewrite Hargs.
  unfold main_after_log, log_opened, bind, os_path_exists, os_remove,
    logging_basicConfig, open_append, ret.
  by destruct (bool_decide _).
Qed.

Lemma log_opened_requests (w : world) :
  server (log_opened w) = server w
  /\ requests_of (trace (log_opened w)) = requests_of (trace w)
  /\ exists evs, trace (log_opened w) = trace w ++ evs
                 /\ prints_of evs = [] /\ requests_of evs = [].
Proof.
  unfold log_opened, bind, os_path_exists, os_remove, logging_basicConfig,
    open_append, ret.
  destruct (bool_decide _); simpl.
  - split; [done|]. split.
    + by rewrite !requests_of_app, !app_nil_r.
    + eexists [_; _]. by rewrite <- app_assoc.
  - split; [done|]. split.
    + by rewrite !requests_of_app, !app_nil_r.
    + by eexists [_].
Qed.

(** X7. When the fetched project list is empty or false (a failed fetch
    included), [main] prints "No projects found." and returns: that is its
    only output, and the request for the projects its only request. *)
Theorem main_without_projects (w : world) (argv : list string)
  (operation : string) (projects : json) :
  parse_args argv = Ok operation ->
  fetched (reply w (projects_request api_key)) = Ok projects ->
  py_truthy projects = false ->
  exists evs w',
    main py_repr format_timestamp parse_args api_key argv w = (Ok tt, w')
    /\ trace w' = trace w ++ evs
    /\ prints_of evs = ["No projects found."]
    /\ requests_of evs = [projects_request api_key].
Proof.
  intros Hargs Hfetched Hfalse.
  destruct (log_opened_requests w) as (Hsrv & Hreq & evs0 & Htr0 & Hp0 & Hr0).
  destruct (fetch_projects_run api_key (log_opened w))
    as (lv & msg & Hrun).
  rewrite (reply_same_requests w (log_opened w)) in Hrun by done.
  rewrite Hfetched in Hrun.
  eexists (evs0 ++ [_; _; _]), _. split.
  { rewrite (main_run argv operation w Hargs).
    unfold main_after_log, bind. rewrite Hrun, Hfalse. reflexivity. }
  unfold emit_world. cbn [trace]. rewrite Htr0. split_and!.
  - by rewrite <- !app_assoc.
  - rewrite prints_of_app, Hp0. reflexivity.
  - rewrite requests_of_app, Hr0. reflexivity.
Qed.

(** *** The filter of [show_models] *)

Definition has_status (model : json) : Prop :=
  exists status, py_getitem model "activeVersionStatus" = Ok status.

Lemma running_items_filter (items : list json) :
  Forall has_status items ->
  running_items items = Ok (List.filter is_running items).
Proof.
  induction 1 as [|model items [status Hstatus] _ IH]; [reflexivity|].
  simpl. unfold is_running. rewrite Hstatus, IH. simpl.
  by destruct (py_eq_str status "Running").
Qed.

(** X8. When some fetched model is running, [show_models] with the filter
    prints for the running models, in their order, exactly what it prints
    without the filter for a list of those models alone: the header and the
    block of each model. *)
Theorem show_running_shows_the_running (w : world)
  (project_id project_name : json) (items : list json) :
  fetched (reply w (models_request py_repr api_key project_id))
  = Ok (JArr items) ->
  Forall has_status items ->
  List.filter is_running items <> [] ->
  show_models py_repr format_timestamp api_key project_id project_name true w
  = show_block py_repr format_timestamp project_id project_name
      (JArr (List.filter is_running items))
      (snd (fetch_models py_repr api_key project_id w))
  /\ show_models py_repr format_timestamp api_key project_id project_name
                 false w
     = show_block py_repr format_timestamp project_id project_name
         (JArr items) (snd (fetch_models py_repr api_key project_id w)).
Proof.
  intros Hfetched Hstatus Hsome.
  destruct (fetch_models_run py_repr api_key project_id w)
    as (lv & msg & Hrun).
  rewrite Hfetched in Hrun. unfold show_models, bind. rewrite Hrun.
  assert (Hitems : py_truthy (JArr items) = true).
  { destruct items; [by destruct Hsome|done]. }
  rewrite Hitems. unfold lift, running_only. simpl py_iter. cbv beta iota.
  simpl rbind. rewrite (running_items_filter items Hstatus).
  split; [|reflexivity].
  by destruct (List.filter is_running items).
Qed.

(** *** What an action may do to the files *)

Definition fs_rel (R : relation (gmap string string)) {A} (m : M A) : Prop :=
  forall w, R (fs w) (fs (snd (m w))).

Section FsRel.

Context (R : relation (gmap string string)) `{!PreOrder R}.

Lemma fs_rel_keeps {A} (m : M A) : keeps_fs m -> fs_rel R m.
Proof. intros Hm w. by rewrite Hm. Qed.

Lemma fs_rel_bind {A B} (m : M A) (k : A -> M B) :
  fs_rel R m -> (forall a, fs_rel R (k a)) -> fs_rel R (bind m k).
Proof.
  intros Hm Hk w. unfold bind. specialize (Hm w).
  destruct (m w) as [[a|e] w1]; simpl in *; [|done].
  etrans; [exact Hm|apply Hk].
Qed.

Lemma fs_rel_for_each {A} (xs : list A) (body : A -> M unit) :
  (forall x, fs_rel R (body x)) -> fs_rel R (for_each xs body).
Proof.
  intros Hbody. induction xs as [|x xs IH]; simpl.
  - by apply fs_rel_keeps, keeps_fs_ret.
  - apply fs_rel_bind; auto.
Qed.

End FsRel.

Lemma keeps_fs_wrappers (project_id model_id version_id : json) :
  keeps_fs (fetch_projects api_key)
  /\ keeps_fs (fetch_models py_repr api_key project_id)
  /\ keeps_fs (stop_model_deployment py_repr api_key model_id version_id).
Proof.
  split_and!; intros w.
  - by destruct (fetch_projects_run api_key w) as (lv & msg & ->).
  - by destruct (fetch_models_run py_repr api_key project_id w)
      as (lv & msg & ->).
  - by destruct (stop_model_deployment_run py_repr api_key model_id
                   version_id w) as (lv & msg & ->).
Qed.

Ltac keeps_fs_step :=
  match goal with
  | |- keeps_fs (bind _ _) => apply keeps_fs_bind; [|intros ?]
  | |- keeps_fs (lift _) => apply keeps_fs_lift
  | |- keeps_fs (ret _) => apply keeps_fs_ret
  | |- keeps_fs (print _) => apply keeps_fs_emit
  | |- keeps_fs (logging_debug _) => apply keeps_fs_emit
  | |- keeps_fs (for_each _ _) => apply keeps_fs_for_each; intros ?
  | |- keeps_fs (fetch_models _ _ _) => apply keeps_fs_wrappers; exact JNull
  | |- keeps_fs (stop_model_deployment _ _ _ _) =>
      apply keeps_fs_wrappers; exact JNull
  | |- keeps_fs (if ?b then _ else _) => destruct b
  | |- keeps_fs (match ?x with _ => _ end) => destruct x
  end.

Lemma keeps_fs_show_models (project_id project_name : json) (only : bool) :
  keeps_fs (show_models py_repr format_timestamp api_key project_id
                        project_name only).
Proof.
  unfold show_models, show_block, show_model, print_field.
  repeat keeps_fs_step.
Qed.

Lemma keeps_fs_stop_loop (items : list json) (acc : list string) :
  keeps_fs (stop_loop py_repr api_key items acc).
Proof.
  revert acc. induction items as [|model items IH]; intros acc; simpl.
  - apply keeps_fs_ret.
  - repeat first [apply IH | keeps_fs_step].
Qed.

Lemma keeps_fs_start_models_from_file :
  keeps_fs (start_models_from_file py_repr api_key).
Proof.
  unfold start_models_from_file.
  apply keeps_fs_bind; [by intros w|].
  intros found. destruct found; simpl.
  - apply keeps_fs_bind.
    + intros w. unfold open_readlines.
      by destruct (fs w !! stopped_models_txt).
    + intros lines. apply keeps_fs_for_each, keeps_fs_start_line.
  - apply keeps_fs_emit.
Qed.

(** The file [path] holds at least what it held: it was not there, or what
    it holds now starts with what it held. *)
Definition grown (path : string) : relation (gmap string string) :=
  fun before after =>
    forall old, before !! path = Some old ->
                exists suffix, after !! path = Some (old +:+ suffix).

(** The files whose path satisfies [keep] are as they were. *)
Definition kept (keep : string -> Prop) : relation (gmap string string) :=
  fun before after =>
    forall path, keep path -> after !! path = before !! path.

#[local] Instance grown_preorder (path : string) : PreOrder (grown path).
Proof.
  split.
  - intros m old Hold. exists EmptyString. by rewrite append_empty_r.
  - intros a b c Hab Hbc old Hold.
    destruct (Hab old Hold) as (s1 & H1).
    destruct (Hbc _ H1) as (s2 & H2).
    exists (s1 +:+ s2). by rewrite <- append_assoc.
Qed.

#[local] Instance kept_preorder (keep : string -> Prop) :
  PreOrder (kept keep).
Proof.
  split.
  - by intros m path _.
  - intros a b c Hab Hbc path Hpath. by rewrite Hbc, Hab.
Qed.

Lemma grown_open_append (path target : string) :
  fs_rel (grown path) (open_append target).
Proof.
  intros w old Hold. simpl.
  destruct (decide (target = path)) as [->|Hne].
  - rewrite lookup_insert_eq, Hold. exists EmptyString.
    by rewrite append_empty_r.
  - rewrite lookup_insert_ne by done. exists EmptyString.
    by rewrite append_empty_r.
Qed.

Lemma grown_file_write (path target data : string) :
  fs_rel (grown path) (file_write target data).
Proof.
  intros w old Hold. simpl.
  destruct (decide (target = path)) as [->|Hne].
  - rewrite lookup_insert_eq, Hold. by exists data.
  - rewrite lookup_insert_ne by done. exists EmptyString.
    by rewrite append_empty_r.
Qed.

Lemma grown_stop_running_models (path : string)
  (project_id project_name : json) :
  fs_rel (grown path)
         (stop_running_models py_repr api_key project_id project_name).
Proof.
  unfold stop_running_models.
  apply fs_rel_bind; [apply _| |intros models].
  { apply fs_rel_keeps; [apply _|]. apply keeps_fs_wrappers; exact JNull. }
  destruct (py_truthy models);
    [|apply fs_rel_keeps; [apply _|apply keeps_fs_ret]].
  apply fs_rel_bind; [apply _| |intros items].
  { apply fs_rel_keeps; [apply _|apply keeps_fs_lift]. }
  apply fs_rel_bind; [apply _| |intros stopped].
  { apply fs_rel_keeps; [apply _|apply keeps_fs_stop_loop]. }
  destruct stopped as [|record records];
    [apply fs_rel_keeps; [apply _|apply keeps_fs_ret]|].
  apply fs_rel_bind; [apply _|apply grown_open_append|intros _].
  apply fs_rel_bind; [apply _| |intros _].
  { apply fs_rel_for_each; [apply _|]. intros model. apply grown_file_write. }
  apply fs_rel_keeps; [apply _|apply keeps_fs_emit].
Qed.

Lemma kept_open_append (keep : string -> Prop) (target : string) :
  ~ keep target -> fs_rel (kept keep) (open_append target).
Proof.
  intros Hnot w path Hpath. simpl.
  apply lookup_insert_ne. by intros ->.
Qed.

Lemma kept_file_write (keep : string -> Prop) (target data : string) :
  ~ keep target -> fs_rel (kept keep) (file_write target data).
Proof.
  intros Hnot w path Hpath. simpl.
  apply lookup_insert_ne. by intros ->.
Qed.

Lemma kept_os_remove (keep : string -> Prop) (target : string) :
  ~ keep target -> fs_rel (kept keep) (os_remove target).
Proof.
  intros Hnot w path Hpath. simpl.
  apply lookup_delete_ne. by intros ->.
Qed.

Lemma grown_os_remove (path target : string) :
  target <> path -> fs_rel (grown path) (os_remove target).
Proof.
  intros Hne w old Hold. simpl. rewrite lookup_delete_ne by done.
  exists EmptyString. by rewrite append_empty_r.
Qed.

Lemma kept_stop_running_models (keep : string -> Prop)
  (project_id project_name : json) :
  ~ keep stopped_models_txt ->
  fs_rel (kept keep)
         (stop_running_models py_repr api_key project_id project_name).
Proof.
  intros Hnot. unfold stop_running_models.
  apply fs_rel_bind; [apply _| |intros models].
  { apply fs_rel_keeps; [apply _|]. apply keeps_fs_wrappers; exact JNull. }
  destruct (py_truthy models);
    [|apply fs_rel_keeps; [apply _|apply keeps_fs_ret]].
  apply fs_rel_bind; [apply _| |intros items].
  { apply fs_rel_keeps; [apply _|apply keeps_fs_lift]. }
  apply fs_rel_bind; [apply _| |intros stopped].
  { apply fs_rel_keeps; [apply _|apply keeps_fs_stop_loop]. }
  destruct stopped as [|record records];
    [apply fs_rel_keeps; [apply _|apply keeps_fs_ret]|].
  apply fs_rel_bind; [apply _|by apply kept_open_append|intros _].
  apply fs_rel_bind; [apply _| |intros _].
  { apply fs_rel_for_each; [apply _|]. intros model.
    by apply kept_file_write. }
  apply fs_rel_keeps; [apply _|apply keeps_fs_emit].
Qed.


(** *** The files over a whole run of [main] *)

Ltac rel_keeps := apply fs_rel_keeps; try exact _.
Ltac rel_bind := apply fs_rel_bind; try exact _.

Lemma fs_rel_dispatch (R : relation (gmap string string)) `{!PreOrder R}
  (operation : string) (project_id project_name : json) :
  (operation = "stop" ->
   fs_rel R (stop_running_models py_repr api_key project_id project_name)) ->
  fs_rel R (dispatch py_repr format_timestamp api_key operation project_id
                     project_name).
Proof.
  intros Hstop. unfold dispatch.
  destruct (String.eqb operation "show-all");
    [rel_keeps; apply keeps_fs_show_models|].
  destruct (String.eqb operation "show-running");
    [rel_keeps; apply keeps_fs_show_models|].
  destruct (String.eqb_spec operation "stop"); [by apply Hstop|].
  destruct (String.eqb operation "start"); rel_keeps.
  - apply keeps_fs_start_models_from_file.
  - apply keeps_fs_ret.
Qed.

Lemma fs_rel_main_after_log (R : relation (gmap string string))
  `{!PreOrder R} (operation : string) :
  (forall project_id project_name,
     fs_rel R (dispatch py_repr format_timestamp api_key operation
                        project_id project_name)) ->
  fs_rel R (main_after_log operation).
Proof.
  intros Hdispatch. unfold main_after_log.
  rel_bind; [rel_keeps; apply keeps_fs_wrappers; exact JNull|].
  intros projects.
  destruct (negb (py_truthy projects)); [rel_keeps; apply keeps_fs_emit|].
  rel_bind; [rel_keeps; apply keeps_fs_lift|]. intros items.
  apply fs_rel_for_each; try exact _. intros project.
  unfold main_project.
  rel_bind; [rel_keeps; apply keeps_fs_lift|]. intros project_id.
  rel_bind; [rel_keeps; apply keeps_fs_lift|]. intros project_name.
  rel_bind; [rel_keeps; apply keeps_fs_wrappers; exact JNull|].
  intros models.
  destruct (py_truthy models); [|rel_keeps; apply keeps_fs_ret].
  rel_bind; [rel_keeps; apply keeps_fs_emit|]. intros _.
  rel_bind; [rel_keeps; apply keeps_fs_emit|]. intros _.
  apply Hdispatch.
Qed.

Lemma fs_rel_log_opened (R : relation (gmap string string)) `{!PreOrder R}
  (w : world) :
  fs_rel R (os_remove model_manage_log_txt) ->
  fs_rel R (open_append model_manage_log_txt) ->
  R (fs w) (fs (log_opened w)).
Proof.
  intros Hremove Hopen. unfold log_opened, logging_basicConfig.
  etrans; [|apply Hopen].
  revert w. change (fs_rel R (bind (os_path_exists model_manage_log_txt)
    (fun found : bool =>
       if found then os_remove model_manage_log_txt else ret tt))).
  rel_bind; [rel_keeps; by intros w|]. intros found.
  destruct found; [apply Hremove|]. rel_keeps. apply keeps_fs_ret.
Qed.

Lemma fs_rel_main (R : relation (gmap string string)) `{!PreOrder R}
  (argv : list string) :
  fs_rel R (os_remove model_manage_log_txt) ->
  fs_rel R (open_append model_manage_log_txt) ->
  (forall operation project_id project_name,
     parse_args argv = Ok operation ->
     fs_rel R (dispatch py_repr format_timestamp api_key operation
                        project_id project_name)) ->
  fs_rel R (main py_repr format_timestamp parse_args api_key argv).
Proof.
  intros Hremove Hopen Hdispatch w.
  destruct (parse_args argv) as [operation|e] eqn:Hargs.
  - rewrite (main_run argv operation w Hargs).
    transitivity (fs (log_opened w)); [by apply fs_rel_log_opened|].
    apply fs_rel_main_after_log; [done|]. intros project_id project_name.
    by apply Hdispatch.
  - unfold main. unfold bind at 1. unfold lift at 1. rewrite Hargs.
    simpl. reflexivity.
Qed.

End Coverage.

(** ** The files over a run of the program *)

Lemma log_is_not_the_record : model_manage_log_txt <> stopped_models_txt.
Proof. unfold model_manage_log_txt, stopped_models_txt. discriminate. Qed.

(** X10. No run of the program shortens or deletes [stopped_models.txt]:
    whatever the environment, the command line and the server's answers
    are, and however the run ends, the file afterwards starts with what it
    held before. *)
Theorem program_never_shortens_the_record (py_repr : json -> string)
  (format_timestamp : json -> result string)
  (parse_args : list string -> result string)
  (environ : gmap string string) (argv : list string) (w : world)
  (old : string) :
  fs w !! stopped_models_txt = Some old ->
  exists suffix,
    fs (snd (script py_repr format_timestamp parse_args environ argv w))
      !! stopped_models_txt
    = Some (old +:+ suffix).
Proof.
  intros Hold. unfold script, bind, lift.
  destruct (load_api_key environ) as [key|e].
  - revert old Hold.
    apply (@fs_rel_main py_repr format_timestamp parse_args key
             (grown stopped_models_txt) (grown_preorder _) argv).
    + apply grown_os_remove, log_is_not_the_record.
    + apply grown_open_append.
    + intros operation project_id project_name _.
      apply (@fs_rel_dispatch py_repr format_timestamp key _
               (grown_preorder _)).
      intros _. apply grown_stop_running_models.
  - exists EmptyString. simpl. by rewrite append_empty_r.
Qed.

(** X11. A run of the program changes no file but its log file and
    [stopped_models.txt], and it changes [stopped_models.txt] only when the
    operation parsed from the command line is [stop]. *)
Theorem program_leaves_other_files_alone (py_repr : json -> string)
  (format_timestamp : json -> result string)
  (parse_args : list string -> result string)
  (environ : gmap string string) (argv : list string) (w : world)
  (path : string) :
  path <> model_manage_log_txt ->
  path <> stopped_models_txt \/ parse_args argv <> Ok "stop" ->
  fs (snd (script py_repr format_timestamp parse_args environ argv w))
    !! path
  = fs w !! path.
Proof.
  intros Hlog Hpath. unfold script, bind, lift.
  destruct (load_api_key environ) as [key|e]; [|reflexivity].
  set (keep := fun p : string =>
         p <> model_manage_log_txt
         /\ (p <> stopped_models_txt \/ parse_args argv <> Ok "stop")).
  apply (@fs_rel_main py_repr format_timestamp parse_args key
           (kept keep) (kept_preorder _) argv); [| | |by split].
  - apply kept_os_remove. by intros [H _].
  - apply kept_open_append. by intros [H _].
  - intros operation project_id project_name Hargs.
    apply (@fs_rel_dispatch py_repr format_timestamp key _
             (kept_preorder _)).
    intros ->. apply kept_stop_running_models.
    intros [_ [H|H]]; contradiction.
Qed.

Lemma program_never_shortens_the_record_witness :
  exists suffix,
    fs (snd (script sample_repr sample_format_timestamp sample_parse_args
                    {[ "DOMINO_USER_API_KEY" := "key" ]} ["stop"]
                    (world_with_file one_record)))
      !! stopped_models_txt
    = Some (one_record +:+ suffix).
Proof.
  exact (program_never_shortens_the_record sample_repr
           sample_format_timestamp sample_parse_args
           {[ "DOMINO_USER_API_KEY" := "key" ]} ["stop"]
           (world_with_file one_record) one_record eq_refl).
Defined.

Lemma program_leaves_other_files_alone_witness :
  fs (snd (script sample_repr sample_format_timestamp sample_parse_args
                  {[ "DOMINO_USER_API_KEY" := "key" ]} ["start"]
                  (world_with_file one_record)))
    !! stopped_models_txt
  = Some one_record.
Proof.
  refine (program_leaves_other_files_alone sample_repr
            sample_format_timestamp sample_parse_args
            {[ "DOMINO_USER_API_KEY" := "key" ]} ["start"]
            (world_with_file one_record) stopped_models_txt _ _).
  - unfold model_manage_log_txt, stopped_models_txt. discriminate.
  - right. simpl. discriminate.
Defined.

(** ** From [stop] to [start] *)

Section Restart.

Context (py_repr : json -> string) (api_key : string).

(** The message [start_models_from_file] prints for a started record. *)
Definition confirmation (record : string * string * string) : string :=
  "Successfully started model '" +:+ fst (fst record) +:+ "' with ID "
  +:+ snd (fst record) +:+ " and Version ID " +:+ snd record.

Lemma start_lines_confirm (lines : list string)
  (records : list (string * string * string)) (w : world) :
  mapM parse_line lines = Some records ->
  exists started evs w',
    for_each lines (start_line py_repr api_key) w = (Ok tt, w')
    /\ trace w' = trace w ++ evs
    /\ sublist started records
    /\ requests_of evs = map (record_start_request py_repr api_key) records
    /\ succeeded evs = map (record_start_request py_repr api_key) started
    /\ prints_of evs = map confirmation started.
Proof.
  rewrite mapM_Some. intros Hall. revert w.
  induction Hall as [|line record lines records Hline _ IH]; intros w.
  - exists [], [], w. simpl. rewrite app_nil_r. by repeat split.
  - assert (Hstep : exists evs1 w1 (ok : bool),
      start_line py_repr api_key line w = (Ok tt, w1)
      /\ trace w1 = trace w ++ evs1
      /\ requests_of evs1 = [record_start_request py_repr api_key record]
      /\ succeeded evs1
         = (if ok then [record_start_request py_repr api_key record] else [])
      /\ prints_of evs1 = (if ok then [confirmation record] else [])).
    { revert Hline. unfold parse_line, start_line.
      destruct (split comma (strip line)) as [|a [|b [|c [|d rest]]]];
        try discriminate.
      intros [= <-]. unfold bind.
      destruct (start_model_deployment_run py_repr api_key (JStr b) (JStr c)
                  w) as (lv & msg & ->).
      remember (reply w (start_request py_repr api_key (JStr b) (JStr c)))
        as rs eqn:Hrs. clear Hrs.
      destruct (status_code rs =? 200) eqn:Hcode.
      - eexists [_; _; _], _, true. split; [reflexivity|].
        split; [unfold emit_world; cbn [trace]; by rewrite <- !app_assoc|].
        simpl. by rewrite Hcode.
      - eexists [_; _], _, false. split; [reflexivity|].
        split; [unfold emit_world; cbn [trace]; by rewrite <- !app_assoc|].
        simpl. by rewrite Hcode. }
    destruct Hstep as (evs1 & w1 & ok & Hrun1 & Htr1 & Hrq1 & Hs1 & Hp1).
    destruct (IH w1)
      as (started & evs2 & w2 & Hrun2 & Htr2 & Hsub & Hrq2 & Hs2 & Hp2).
    exists (if ok then record :: started else started), (evs1 ++ evs2), w2.
    simpl. unfold bind. rewrite Hrun1, Hrun2.
    rewrite requests_of_app, succeeded_app, prints_of_app.
    rewrite Hrq1, Hrq2, Hs1, Hs2, Hp1, Hp2, Htr2, Htr1, <- app_assoc.
    destruct ok; repeat split; by constructor.
Qed.

(** X12. With a persistence file whose lines all have three fields,
    [start_models_from_file] prints one confirmation for each record whose
    start request is answered with 200, in the order of the file, and
    nothing else; a request that fails is passed over without a message and
    the following records are still processed. *)
Theorem start_confirms_each_started_model (w : world) (content : string)
  (records : list (string * string * string)) :
  fs w !! stopped_models_txt = Some content ->
  mapM parse_line (readlines content) = Some records ->
  exists started evs w',
    start_models_from_file py_repr api_key w = (Ok tt, w')
    /\ trace w' = trace w ++ evs
    /\ sublist started records
    /\ requests_of evs = map (record_start_request py_repr api_key) records
    /\ succeeded evs = map (record_start_request py_repr api_key) started
    /\ prints_of evs = map confirmation started.
Proof.
  intros Hfile Hlines.
  destruct (start_lines_confirm _ _
              (emit_world (EvOpen stopped_models_txt "r") w) Hlines)
    as (started & evs & w' & Hrun & Htr & Hsub & Hrq & Hs & Hp).
  exists started, (EvOpen stopped_models_txt "r" :: evs), w'.
  unfold start_models_from_file, bind, os_path_exists, open_readlines.
  rewrite Hfile. rewrite bool_decide_eq_true_2 by eauto. simpl.
  rewrite Hfile, Hrun. split_and!; try done.
  rewrite Htr. simpl. by rewrite <- app_assoc.
Qed.

(** A model whose record can be read back. *)
Definition clean_model (model : json) : Prop :=
  clean_fields (py_str py_repr (field model "name"))
               (py_str py_repr (field model "id"))
               (py_str py_repr (field model "activeModelVersionId")).

Definition model_fields (model : json) : string * string * string :=
  (py_str py_repr (field model "name"), py_str py_repr (field model "id"),
   py_str py_repr (field model "activeModelVersionId")).

Lemma Forall_of_sublist {A} (P : A -> Prop) (xs ys : list A) :
  sublist xs ys -> Forall P ys -> Forall P xs.
Proof.
  induction 1 as [|x xs ys _ IH|y xs ys _ IH]; intros Hall.
  - constructor.
  - inversion Hall; subst. constructor; auto.
  - inversion Hall; subst. auto.
Qed.

Lemma clean_record_no_line_end (model : json) :
  clean_model model -> no_line_end (model_record py_repr model).
Proof.
  intros (_ & _ & _ & [Hn1 Hn2] & [Hi1 Hi2] & [Hv1 Hv2] & _).
  unfold model_record. split; rewrite !count_char_app; simpl; lia.
Qed.

Lemma parse_written_records (stopped : list json) :
  Forall clean_model stopped ->
  mapM parse_line
       (map (fun record => record +:+ NL)
            (map (model_record py_repr) stopped))
  = Some (map model_fields stopped).
Proof.
  intros Hall. apply mapM_Some_2.
  induction Hall as [|model stopped Hmodel _ IH]; simpl; constructor.
  - by apply parse_clean_record.
  - exact IH.
Qed.

(** X13. From [stop] to [start], without a persistence file at the outset:
    when the fetched models have the fields the loop reads and these can be
    read back from a record, [stop_running_models] followed by
    [start_models_from_file] sends a start request for exactly the models
    whose stop request was answered with 200, in their order, with the ids
    the stop requests had. *)
Theorem stopped_models_are_started_again (w : world)
  (project_id project_name : json) (rs : response) (models : list json) :
  fs w !! stopped_models_txt = None ->
  reply w (models_request py_repr api_key project_id) = rs ->
  status_code rs = 200 ->
  json_body rs = Some (JArr models) ->
  Forall well_formed_model models ->
  Forall clean_model models ->
  exists stopped stop_evs w1 start_evs w2,
    stop_running_models py_repr api_key project_id project_name w
    = (Ok tt, w1)
    /\ trace w1 = trace w ++ stop_evs
    /\ succeeded stop_evs
       = models_request py_repr api_key project_id
         :: map (model_stop_request py_repr api_key) stopped
    /\ start_models_from_file py_repr api_key w1 = (Ok tt, w2)
    /\ trace w2 = trace w1 ++ start_evs
    /\ requests_of start_evs
       = map (fun model =>
                start_request py_repr api_key (field model "id")
                              (field model "activeModelVersionId"))
             stopped.
Proof.
  intros Hnone Hreply Hcode Hbody Hwf Hclean.
  destruct (stop_running_models_run py_repr api_key w project_id project_name
              rs models Hreply Hcode Hbody Hwf)
    as (stopped & lv & msg & evs & w1 & Hrun & Hsub & Hreq & Hsucc & Hfile
        & Htr & Hfs).
  assert (Hstopped : Forall clean_model stopped).
  { eapply Forall_of_sublist; [exact Hsub|].
    eapply Forall_of_sublist; [apply filter_sublist|exact Hclean]. }
  pose proof (persisted_events_no_http py_repr project_id project_name
                stopped) as Hnohttp.
  apply no_http_requests in Hnohttp as [_ Hnosucc].
  assert (Hstart : exists start_evs w2,
    start_models_from_file py_repr api_key w1 = (Ok tt, w2)
    /\ trace w2 = trace w1 ++ start_evs
    /\ requests_of start_evs
       = map (record_start_request py_repr api_key)
             (map model_fields stopped)).
  { destruct stopped as [|first others].
    - exists [EvPrint "stopped_models.txt not found. No models to start."],
        (emit_world
           (EvPrint "stopped_models.txt not found. No models to start.") w1).
      split; [|by split].
      unfold start_models_from_file, bind, os_path_exists.
      rewrite Hfs, Hnone. rewrite bool_decide_eq_false_2; [reflexivity|].
      intros [? ?]; discriminate.
    - set (stopped := first :: others) in *.
      assert (Hcontent : fs w1 !! stopped_models_txt
        = Some (record_lines (map (model_record py_repr) stopped))).
      { rewrite Hfs, Hnone. apply lookup_insert_eq. }
      pose proof (parse_written_records stopped Hstopped) as Hparse.
      rewrite <- readlines_record_lines in Hparse.
      2:{ apply Forall_map. eapply Forall_impl; [exact Hstopped|].
          intros m. apply clean_record_no_line_end. }
      destruct (start_lines_ok py_repr api_key _ _
                  (emit_world (EvOpen stopped_models_txt "r") w1) Hparse)
        as (evs2 & w2 & Hrun2 & Htr2 & _ & Hrq2).
      exists (EvOpen stopped_models_txt "r" :: evs2), w2.
      unfold start_models_from_file, bind, os_path_exists, open_readlines.
      rewrite Hcontent. rewrite bool_decide_eq_true_2 by eauto. simpl.
      rewrite Hcontent, Hrun2. split_and!; try done.
      rewrite Htr2. simpl. by rewrite <- app_assoc. }
  destruct Hstart as (start_evs & w2 & Hrun2 & Htr2 & Hrq2).
  exists stopped,
    ([EvHttp (models_request py_repr api_key project_id) rs; EvLog lv msg]
     ++ evs ++ persisted_events py_repr project_id project_name stopped),
    w1, start_evs, w2.
  split_and!; try done.
  - simpl. apply Z.eqb_eq in Hcode. rewrite Hcode.
    by rewrite succeeded_app, Hsucc, Hnosucc, app_nil_r.
  - rewrite Hrq2, map_map. reflexivity.
Qed.

End Restart.

(** ** The requests of a run *)

(** A request as the script sends it: the two headers with the API key, a
    URL under the base URL, no body for GET and an empty body for POST. *)
Definition addressed (key : string) (rq : request) : Prop :=
  req_headers rq
  = [("accept", "application/json"); ("X-Domino-Api-Key", key)]
  /\ (exists path,
        req_url rq = "https://prod-field.cs.domino.tech" +:+ path)
  /\ req_data rq = match req_method rq with
                   | GET => None
                   | POST => Some EmptyString
                   end.

Definition addressed_event (key : string) (e : event) : Prop :=
  match e with
  | EvHttp rq _ => addressed key rq
  | _ => True
  end.


Lemma addressed_requests (key : string) (evs : list event) :
  Forall (addressed_event key) evs ->
  Forall (addressed key) (requests_of evs).
Proof.
  induction 1 as [|e evs He _ IH]; [constructor|].
  destruct e; simpl; try exact IH. by constructor.
Qed.


Ltac emits_go :=
  repeat first
    [ apply emits_ret
    | apply emits_lift
    | (apply emits_emit; first [exact I | reflexivity])
    | (apply emits_for_each; intros ?)
    | match goal with
      | H : _ |- emits _ _ => solve [apply H]
      end
    | match goal with
      | |- emits _ (if ?b then _ else _) => destruct b
      | |- emits _ (match ?x with _ => _ end) => destruct x
      end
    | (apply emits_bind; [|intros ?]) ].

Lemma emits_os_path_exists (P : event -> Prop) (path : string) :
  emits P (os_path_exists path).
Proof. intros w. exists []. simpl. by rewrite app_nil_r. Qed.

Lemma emits_open_readlines (P : event -> Prop) (path : string) :
  (forall mode, P (EvOpen path mode)) -> emits P (open_readlines path).
Proof.
  intros HP w. unfold open_readlines. destruct (fs w !! path).
  - exists [EvOpen path "r"]. simpl. by repeat constructor.
  - exists []. simpl. by rewrite app_nil_r.
Qed.

Section Requests.

Context (py_repr : json -> string)
        (format_timestamp : json -> result string)
        (parse_args : list string -> result string)
        (api_key : string).




Lemma addressed_wrappers (project_id model_id version_id : json) :
  emits (addressed_event api_key) (fetch_projects api_key)
  /\ emits (addressed_event api_key)
           (fetch_models py_repr api_key project_id)
  /\ emits (addressed_event api_key)
           (stop_model_deployment py_repr api_key model_id version_id)
  /\ emits (addressed_event api_key)
           (start_model_deployment py_repr api_key model_id version_id).
Proof.
  split_and!; intros w.
  - destruct (fetch_projects_run api_key w) as (lv & msg & ->).
    eexists [_; _]. simpl. split; [by rewrite <- app_assoc|].
    repeat constructor. by eexists.
  - destruct (fetch_models_run py_repr api_key project_id w)
      as (lv & msg & ->).
    eexists [_; _]. simpl. split; [by rewrite <- app_assoc|].
    repeat constructor. by eexists.
  - destruct (stop_model_deployment_run py_repr api_key model_id version_id
                w) as (lv & msg & ->).
    eexists [_; _]. simpl. split; [by rewrite <- app_assoc|].
    repeat constructor. by eexists.
  - destruct (start_model_deployment_run py_repr api_key model_id version_id
                w) as (lv & msg & ->).
    eexists [_; _]. simpl. split; [by rewrite <- app_assoc|].
    repeat constructor. by eexists.
Qed.

Lemma addressed_file_actions (path data : string) :
  emits (addressed_event api_key) (os_remove path)
  /\ emits (addressed_event api_key) (open_append path)
  /\ emits (addressed_event api_key) (file_write path data).
Proof.
  split_and!; intros w; eexists [_]; simpl; by repeat constructor.
Qed.

Lemma addressed_stop_loop (items : list json) (acc : list string) :
  emits (addressed_event api_key) (stop_loop py_repr api_key items acc).
Proof.
  pose proof (fun m v => proj1 (proj2 (proj2 (addressed_wrappers JNull m v))))
    as Hstop.
  revert acc. induction items as [|model items IH]; intros acc.
  - apply emits_ret.
  - cbn [stop_loop].
    apply emits_bind; [apply emits_lift|intros status].
    destruct (py_eq_str status "Running"); [|apply IH].
    apply emits_bind; [apply emits_lift|intros model_id].
    apply emits_bind; [apply emits_lift|intros active_model_version_id].
    apply emits_bind; [apply Hstop|intros stopped].
    destruct stopped; [|apply IH].
    apply emits_bind; [apply emits_lift|intros name]. apply IH.
Qed.

Lemma addressed_dispatch (operation : string)
  (project_id project_name : json) :
  emits (addressed_event api_key)
        (dispatch py_repr format_timestamp api_key operation project_id
                  project_name).
Proof.
  pose proof (fun p => proj1 (proj2 (addressed_wrappers p JNull JNull)))
    as Hfetch.
  pose proof (fun m v => proj2 (proj2 (proj2 (addressed_wrappers JNull m v))))
    as Hstart.
  pose proof (fun p => proj1 (proj2 (addressed_file_actions p EmptyString)))
    as Hopen.
  pose proof (fun p d => proj2 (proj2 (addressed_file_actions p d)))
    as Hwrite.
  pose proof addressed_stop_loop as Hloop.
  pose proof (emits_os_path_exists (addressed_event api_key)) as Hexists.
  pose proof (fun path =>
                emits_open_readlines (addressed_event api_key) path
                                     (fun _ => I)) as Hread.
  unfold dispatch, show_models, stop_running_models, start_models_from_file,
    show_block, show_model, print_field, start_line.
  emits_go.
Qed.

Lemma addressed_main (argv : list string) :
  emits (addressed_event api_key)
        (main py_repr format_timestamp parse_args api_key argv).
Proof.
  pose proof (proj1 (addressed_wrappers JNull JNull JNull)) as Hprojects.
  pose proof (fun p => proj1 (proj2 (addressed_wrappers p JNull JNull)))
    as Hfetch.
  pose proof (fun p => proj1 (addressed_file_actions p EmptyString))
    as Hremove.
  pose proof (fun p => proj1 (proj2 (addressed_file_actions p EmptyString)))
    as Hopen.
  pose proof (emits_os_path_exists (addressed_event api_key)) as Hexists.
  pose proof addressed_dispatch as Hdispatch.
  unfold main, main_project, logging_basicConfig.
  emits_go.
Qed.

End Requests.

(** X15. Every request sent in a run of the program carries the two headers
    [accept: application/json] and [X-Domino-Api-Key] with the key read
    from the environment, goes to a URL under the base URL, and has no body
    (GET) or an empty body (POST). *)
Theorem every_request_is_addressed (py_repr : json -> string)
  (format_timestamp : json -> result string)
  (parse_args : list string -> result string)
  (environ : gmap string string) (argv : list string) (w : world)
  (key : string) :
  environ !! api_key_variable = Some key ->
  exists evs,
    trace (snd (script py_repr format_timestamp parse_args environ argv w))
    = trace w ++ evs
    /\ Forall (addressed key) (requests_of evs).
Proof.
  intros Hkey. unfold script, bind, lift, load_api_key. rewrite Hkey.
  destruct (negb (String.eqb key EmptyString)).
  - destruct (addressed_main py_repr format_timestamp parse_args key argv w)
      as (evs & Htr & Hall).
    exists evs. split; [exact Htr|]. by apply addressed_requests.
  - exists []. simpl. rewrite app_nil_r. split; [done|constructor].
Qed.

(** ** Worked instances of the properties beyond the claims *)

Lemma sample_fields_clean : clean_fields "churn" "m1" "v1".
Proof. repeat split; reflexivity. Defined.

Lemma record_round_trip_witness :
  clean_fields "churn" "m1" "v1"
  /\ parse_line (("churn" +:+ "," +:+ "m1" +:+ "," +:+ "v1") +:+ NL)
     = Some ("churn", "m1", "v1").
Proof.
  split; [exact sample_fields_clean|].
  exact (proj2 (record_round_trip "churn" "m1" "v1" sample_fields_clean)).
Defined.


Lemma fetch_returns_the_body_witness :
  exists msg,
    fetch_models sample_repr "key" (JInt 1) (sample_world "Running" 200)
    = (Ok (JArr [sample_model "Running"]),
       emit_world (EvLog DEBUG msg)
         (emit_world
            (EvHttp (models_request sample_repr "key" (JInt 1))
                    (mkResponse 200 (Some (JArr [sample_model "Running"]))))
            (sample_world "Running" 200))).
Proof.
  exact (proj2 (fetch_returns_the_body sample_repr "key"
                  (sample_world "Running" 200) (JInt 1)
                  (mkResponse 200 (Some (JArr [sample_model "Running"])))
                  eq_refl)
               eq_refl).
Defined.

Lemma failed_fetch_means_no_models_witness :
  exists w',
    show_models sample_repr sample_format_timestamp "key" (JInt 1) (JStr "P")
                false failing_world
    = (Ok tt, w')
    /\ stop_running_models sample_repr "key" (JInt 1) (JStr "P") failing_world
       = (Ok tt, w').
Proof.
  destruct (failed_fetch_means_no_models sample_repr sample_format_timestamp
              "key" failing_world (JInt 1) (JStr "P") false)
    as (msg & Hshow & Hstop).
  - simpl. lia.
  - eexists. split; [exact Hshow | exact Hstop].
Defined.

Lemma project_without_models_is_skipped_witness :
  exists lv msg,
    main_project sample_repr sample_format_timestamp "key" "stop"
                 sample_project failing_world
    = (Ok tt,
       emit_world (EvLog lv msg)
         (emit_world
            (EvHttp (models_request sample_repr "key" (JInt 1))
                    (reply failing_world
                           (models_request sample_repr "key" (JInt 1))))
            failing_world)).
Proof.
  exact (project_without_models_is_skipped sample_repr
           sample_format_timestamp "key" failing_world "stop" sample_project
           (JInt 1) (JStr "P") (JArr []) eq_refl eq_refl eq_refl eq_refl).
Defined.

Lemma main_without_projects_witness :
  exists evs w',
    main sample_repr sample_format_timestamp sample_parse_args "key" ["stop"]
         failing_world
    = (Ok tt, w')
    /\ trace w' = trace failing_world ++ evs
    /\ prints_of evs = ["No projects found."]
    /\ requests_of evs = [projects_request "key"].
Proof.
  exact (main_without_projects sample_repr sample_format_timestamp
           sample_parse_args "key" failing_world ["stop"] "stop" (JArr [])
           eq_refl eq_refl eq_refl).
Defined.

Lemma show_running_shows_the_running_witness :
  show_models sample_repr sample_format_timestamp "key" (JInt 1) (JStr "P")
              true (sample_world "Running" 200)
  = show_block sample_repr sample_format_timestamp (JInt 1) (JStr "P")
      (JArr (List.filter is_running [sample_model "Running"]))
      (snd (fetch_models sample_repr "key" (JInt 1)
                         (sample_world "Running" 200))).
Proof.
  refine (proj1 (show_running_shows_the_running sample_repr
                   sample_format_timestamp "key" (sample_world "Running" 200)
                   (JInt 1) (JStr "P") [sample_model "Running"]
                   eq_refl _ _)).
  - constructor; [|constructor]. exists (JStr "Running"). reflexivity.
  - simpl. discriminate.
Defined.


Lemma start_confirms_each_started_model_witness :
  exists started evs w',
    start_models_from_file sample_repr "key" (world_with_file one_record)
    = (Ok tt, w')
    /\ trace w' = trace (world_with_file one_record) ++ evs
    /\ sublist started [("churn", "m1", "v1")]
    /\ requests_of evs
       = map (record_start_request sample_repr "key") [("churn", "m1", "v1")]
    /\ succeeded evs = map (record_start_request sample_repr "key") started
    /\ prints_of evs = map confirmation started.
Proof.
  exact (start_confirms_each_started_model sample_repr "key"
           (world_with_file one_record) one_record [("churn", "m1", "v1")]
           eq_refl eq_refl).
Defined.

Lemma stopped_models_are_started_again_witness :
  exists stopped w1 start_evs w2,
    stop_running_models sample_repr "key" (JInt 1) (JStr "P")
                        (sample_world "Running" 200)
    = (Ok tt, w1)
    /\ start_models_from_file sample_repr "key" w1 = (Ok tt, w2)
    /\ trace w2 = trace w1 ++ start_evs
    /\ requests_of start_evs
       = map (fun model =>
                start_request sample_repr "key" (field model "id")
                              (field model "activeModelVersionId"))
             stopped.
Proof.
  destruct (stopped_models_are_started_again sample_repr "key"
              (sample_world "Running" 200) (JInt 1) (JStr "P")
              (mkResponse 200 (Some (JArr [sample_model "Running"])))
              [sample_model "Running"] eq_refl eq_refl eq_refl eq_refl)
    as (stopped & stop_evs & w1 & start_evs & w2 & Hstop & _ & _ & Hstart
        & Htr & Hreq).
  - constructor; [apply sample_model_well_formed | constructor].
  - constructor; [exact sample_fields_clean | constructor].
  - exists stopped, w1, start_evs, w2. repeat split; assumption.
Defined.

Lemma every_request_is_addressed_witness :
  exists evs,
    trace (snd (script sample_repr sample_format_timestamp sample_parse_args
                       {[ "DOMINO_USER_API_KEY" := "key" ]} ["stop"]
                       (sample_world "Running" 200)))
    = trace (sample_world "Running" 200) ++ evs
    /\ Forall (addressed "key") (requests_of evs).
Proof.
  exact (every_request_is_addressed sample_repr sample_format_timestamp
           sample_parse_args {[ "DOMINO_USER_API_KEY" := "key" ]} ["stop"]
           (sample_world "Running" 200) "key" eq_refl).
Defined.
